(** * time.h: the [Time] and [Duration] classes

    A shallow embedding of [src/time.h] and the properties its specification
    states about it.

    Integers are modelled as [Z] with the wrap-around of the C++ type written
    out.  The header's own comment fixes the target (Linux, [time_t] and
    [suseconds_t] both [long int]), so [long] and [unsigned long] are 64 bits
    wide and [int] and [unsigned int] 32 bits wide.  Conversions between
    integer types reduce modulo the width of the destination; signed
    arithmetic that leaves the range of its type is modelled by the same
    two's-complement wrap-around. *)

From Stdlib Require Import ZArith Lia Bool Ascii String List.
From stdpp Require Import base option gmap pretty.

Local Open Scope Z_scope.

(** ** Machine integers *)

Module Int.

(** Conversion to [unsigned long]. *)
Definition to_ulong (z : Z) : Z := z mod 2 ^ 64.

(** Conversion to [long] ([time_t], [suseconds_t]). *)
Definition to_long (z : Z) : Z := (z + 2 ^ 63) mod 2 ^ 64 - 2 ^ 63.

(** Conversion to [int]. *)
Definition to_int (z : Z) : Z := (z + 2 ^ 31) mod 2 ^ 32 - 2 ^ 31.

(** Conversion to [unsigned int]. *)
Definition to_uint (z : Z) : Z := z mod 2 ^ 32.

Definition is_ulong (z : Z) : Prop := 0 <= z < 2 ^ 64.
Definition is_long (z : Z) : Prop := - 2 ^ 63 <= z < 2 ^ 63.
Definition is_int (z : Z) : Prop := - 2 ^ 31 <= z < 2 ^ 31.
Definition is_uint (z : Z) : Prop := 0 <= z < 2 ^ 32.

(** Arithmetic at type [long]: [/] and [%] truncate towards zero. *)
Definition ladd (a b : Z) : Z := to_long (a + b).
Definition lsub (a b : Z) : Z := to_long (a - b).
Definition lmul (a b : Z) : Z := to_long (a * b).
Definition ldiv (a b : Z) : Z := to_long (Z.quot a b).
Definition lrem (a b : Z) : Z := to_long (Z.rem a b).

(** Arithmetic at type [unsigned long]; an operand of a signed type is
    converted first, as the usual arithmetic conversions do. *)
Definition uadd (a b : Z) : Z := to_ulong (to_ulong a + to_ulong b).
Definition umul (a b : Z) : Z := to_ulong (to_ulong a * to_ulong b).
Definition udiv (a b : Z) : Z := to_ulong a / to_ulong b.
Definition umod (a b : Z) : Z := to_ulong a mod to_ulong b.

End Int.

Import Int.

(** ** The data model *)

(** [const unsigned long MAX_USECS = 1000000L;] *)
Definition MAX_USECS : Z := 1000000.

(** [struct timeval] of the host: two [long] fields. *)
Record timeval : Set := mk_timeval { tv_sec : Z; tv_usec : Z }.

(** [class Time]: its one data member is [struct timeval _t]. *)
Record Time : Set := mk_Time { Time_t : timeval }.

(** [class Duration]: [struct timeval _t; bool _su;]. *)
Record Duration : Set := mk_Duration { Duration_t : timeval; Duration_su : bool }.

(** Assignments to one field of [_t], as in [r._t.tv_sec = v]. *)
Definition set_sec (t : Time) (v : Z) : Time :=
  mk_Time (mk_timeval v (tv_usec (Time_t t))).

Definition set_usec (t : Time) (v : Z) : Time :=
  mk_Time (mk_timeval (tv_sec (Time_t t)) v).

(** The normalization invariant of the microsecond field. *)
Definition normalized (t : Time) : Prop := 0 <= tv_usec (Time_t t) < MAX_USECS.

(** Both fields hold values of their C++ type. *)
Definition well_typed (t : Time) : Prop :=
  is_long (tv_sec (Time_t t)) /\ is_long (tv_usec (Time_t t)).

(** ** Constructors *)

(** [Time()] *)
Definition Time_default : Time := set_usec (set_sec (mk_Time (mk_timeval 0 0)) 0) 0.

(** [Time(const Time& t)] *)
Definition Time_copy (t : Time) : Time :=
  mk_Time (mk_timeval (tv_sec (Time_t t)) (tv_usec (Time_t t))).

(** [Time(const timeval& t)] *)
Definition Time_of_timeval (t : timeval) : Time := mk_Time t.

(** [explicit Time(unsigned long micros)] *)
Definition Time_of_micros (micros : Z) : Time :=
  mk_Time (mk_timeval (to_long (udiv micros MAX_USECS))
                      (to_long (umod micros MAX_USECS))).

(** [explicit Time(const time_t secondsSinceEpoch, suseconds_t micros = 0)] *)
Definition Time_of_seconds (secondsSinceEpoch micros : Z) : Time :=
  mk_Time (mk_timeval secondsSinceEpoch micros).

(** [Time& operator = (const Time& rhs)] *)
Definition Time_assign (this rhs : Time) : Time := mk_Time (Time_t rhs).

(** ** Accessors and comparison *)

Definition seconds (t : Time) : Z := tv_sec (Time_t t).
Definition millis (t : Time) : Z := ldiv (tv_usec (Time_t t)) 1000.
Definition micros (t : Time) : Z := tv_usec (Time_t t).

(** [((_t.tv_sec * MAX_USECS) + _t.tv_usec)]: [MAX_USECS] is unsigned, so
    the sum is formed at [unsigned long] and converted to the [suseconds_t]
    the accessor returns. *)
Definition in_micros (t : Time) : Z :=
  to_long (uadd (umul (tv_sec (Time_t t)) MAX_USECS) (tv_usec (Time_t t))).

Definition Time_eq (a b : Time) : bool := in_micros a =? in_micros b.
Definition Time_ne (a b : Time) : bool := negb (Time_eq a b).
Definition Time_ge (a b : Time) : bool := in_micros a >=? in_micros b.
Definition Time_le (a b : Time) : bool := in_micros a <=? in_micros b.
Definition Time_gt (a b : Time) : bool := in_micros a >? in_micros b.
Definition Time_lt (a b : Time) : bool := in_micros a <? in_micros b.

(** ** The clock-setting mutators

    [gettimeofday] is the host's clock; the value it stores is an input. *)

Definition now (this : Time) (clock : timeval) : Time := mk_Time clock.

Definition future (this : Time) (clock : timeval) (secondsInFuture : Z) : Time :=
  let this := mk_Time clock in
  set_sec this (ladd (tv_sec (Time_t this)) secondsInFuture).

Definition past (this : Time) (clock : timeval) (secondsInPast : Z) : Time :=
  let this := mk_Time clock in
  set_sec this (lsub (tv_sec (Time_t this)) secondsInPast).

(** ** Addition and subtraction *)

(** Modelled from the spec: [timeradd] is a macro of the host's
    [<sys/time.h>], not of this repository.  The spec describes it as the
    host's add-with-carry primitive: the fields are added one by one and a
    microsecond sum of [1000000] or more is carried into the seconds. *)
Definition timeradd (a b : timeval) : timeval :=
  let sec := ladd (tv_sec a) (tv_sec b) in
  let usec := ladd (tv_usec a) (tv_usec b) in
  if 1000000 <=? usec
  then mk_timeval (ladd sec 1) (lsub usec 1000000)
  else mk_timeval sec usec.

(** Modelled from the spec: [timersub] is the host's subtract-with-borrow
    macro, the counterpart of [timeradd]: the fields are subtracted one by
    one and a negative microsecond difference borrows one second. *)
Definition timersub (a b : timeval) : timeval :=
  let sec := lsub (tv_sec a) (tv_sec b) in
  let usec := lsub (tv_usec a) (tv_usec b) in
  if usec <? 0
  then mk_timeval (lsub sec 1) (ladd usec 1000000)
  else mk_timeval sec usec.

(** [Time& operator += (const Time& rhs)] *)
Definition Time_add_assign (this rhs : Time) : Time :=
  let result := timeradd (Time_t this) (Time_t rhs) in
  set_usec (set_sec this (tv_sec result)) (tv_usec result).

(** [Time& operator -= (const Time& rhs)] *)
Definition Time_sub_assign (this rhs : Time) : Time :=
  let result := timersub (Time_t this) (Time_t rhs) in
  set_usec (set_sec this (tv_sec result)) (tv_usec result).

(** [friend Time operator + (const Time& t1, const Time& t2)] *)
Definition Time_plus (t1 t2 : Time) : Time :=
  let r := Time_copy t1 in
  Time_add_assign r t2.

(** [friend Time operator + (const Time& t1, unsigned long offset)] *)
Definition Time_plus_offset (t1 : Time) (offset : Z) : Time :=
  let r := Time_of_micros offset in
  Time_plus t1 r.

(** [friend Time operator - (const Time& t1, const Time& t2)] *)
Definition Time_minus (t1 t2 : Time) : Time :=
  let r := Time_copy t1 in
  Time_sub_assign r t2.

(** [friend Time operator - (const Time& t1, unsigned long offset)] *)
Definition Time_minus_offset (t1 : Time) (offset : Z) : Time :=
  let r := Time_of_micros offset in
  Time_minus t1 r.

(** ** Scalar division and multiplication *)

(** [Time& operator /= (int denominator)] *)
Definition Time_div_assign (this : Time) (denominator : Z) : Time :=
  let r := Time_default in
  let r :=
    if tv_sec (Time_t this) >=? denominator then
      let r := set_sec r (ldiv (tv_sec (Time_t this)) denominator) in
      let remainder := to_ulong (lrem (tv_sec (Time_t this)) denominator) in
      let micros := uadd (umul remainder MAX_USECS) (tv_usec (Time_t this)) in
      set_usec r (to_long (udiv micros denominator))
    else
      let r := set_sec r 0 in
      let micros := uadd (umul (tv_sec (Time_t this)) MAX_USECS)
                         (tv_usec (Time_t this)) in
      set_usec r (to_long (udiv micros denominator))
  in
  Time_assign this r.

(** [Time& operator *= (int multiplier)] *)
Definition Time_mul_assign (this : Time) (multiplier : Z) : Time :=
  let r := Time_default in
  let secsToAdd := 0 in
  let micros := to_ulong (lmul (tv_usec (Time_t this)) multiplier) in
  let '(secsToAdd, r) :=
    if micros >? MAX_USECS
    then (to_int (udiv micros MAX_USECS), set_usec r (to_long (umod micros MAX_USECS)))
    else (secsToAdd, set_usec r (to_long micros))
  in
  let r := set_sec r (lmul (tv_sec (Time_t r)) multiplier) in
  let r := set_sec r (ladd (tv_sec (Time_t r)) secsToAdd) in
  Time_assign this r.

(** [friend Time operator / (const Time& t, unsigned int denominator)]; the
    call of [operator /=] converts the denominator to [int]. *)
Definition Time_div (t : Time) (denominator : Z) : Time :=
  let r := Time_copy t in
  Time_div_assign r (to_int denominator).

(** [friend Time operator * (const Time& t, unsigned int multiplier)] *)
Definition Time_mul (t : Time) (multiplier : Z) : Time :=
  let r := Time_copy t in
  Time_mul_assign r (to_int multiplier).

(** ** Output streams

    The part of [std::ostream] that the two [operator <<] of the header
    use: the characters written so far and the formatting state (fill
    character, field width, adjustment).  A formatted insertion pads its
    text to the field width and resets the width to zero. *)

Inductive adjustfield : Set := adjust_unset | adjust_left | adjust_right | adjust_internal.

Record ostream : Set := mk_ostream {
  os_text : string;
  os_fill : ascii;
  os_width : nat;
  os_adjust : adjustfield
}.

(** A stream in its initial state, as [std::basic_ios::init] leaves it. *)
Definition ostream_init : ostream := mk_ostream "" " " 0 adjust_unset.

(** [std::setfill(c)], [std::setw(n)], [std::right], [std::left] *)
Definition setfill (c : ascii) (os : ostream) : ostream :=
  mk_ostream (os_text os) c (os_width os) (os_adjust os).

Definition setw (n : nat) (os : ostream) : ostream :=
  mk_ostream (os_text os) (os_fill os) n (os_adjust os).

Definition right (os : ostream) : ostream :=
  mk_ostream (os_text os) (os_fill os) (os_width os) adjust_right.

Definition left (os : ostream) : ostream :=
  mk_ostream (os_text os) (os_fill os) (os_width os) adjust_left.

Fixpoint fill_string (n : nat) (c : ascii) : string :=
  match n with
  | O => EmptyString
  | S n' => String c (fill_string n' c)
  end.

(** Padding of a field made of a sign and a body; only [internal] puts the
    fill characters between the two. *)
Definition pad (os : ostream) (sign body : string) : string :=
  let n := (os_width os - (String.length sign + String.length body))%nat in
  match os_adjust os with
  | adjust_left => sign +:+ body +:+ fill_string n (os_fill os)
  | adjust_internal => sign +:+ fill_string n (os_fill os) +:+ body
  | _ => fill_string n (os_fill os) +:+ sign +:+ body
  end.

Definition write_field (sign body : string) (os : ostream) : ostream :=
  mk_ostream (os_text os +:+ pad os sign body) (os_fill os) 0 (os_adjust os).

(** [os << c] for a [char] and [os << s] for a string literal *)
Definition put_char (c : ascii) (os : ostream) : ostream :=
  write_field "" (String c EmptyString) os.

Definition put_cstring (s : string) (os : ostream) : ostream :=
  write_field "" s os.

(** [os << n] for an [unsigned long] and for a [long], in decimal *)
Definition put_ulong (n : Z) (os : ostream) : ostream :=
  write_field "" (pretty (Z.to_N (to_ulong n))) os.

Definition put_long (n : Z) (os : ostream) : ostream :=
  let n := to_long n in
  if n <? 0
  then write_field "-" (pretty (Z.to_N (- n))) os
  else write_field "" (pretty (Z.to_N n)) os.

(** The chain [os << a << b] reads left to right. *)
Notation "os << f" := (f os) (at level 50, left associativity, only parsing).

(** ** Rendering *)

(** [friend std::ostream& operator << (std::ostream& os, const Time& t)] *)
Definition Time_print (t : Time) (os : ostream) : ostream :=
  os << put_long (tv_sec (Time_t t)) << put_char "." << setw 6 << right
     << setfill "0" << put_long (tv_usec (Time_t t)) << put_char "s"
     << setfill " " << left.

(** [friend std::ostream& operator << (std::ostream& os, const Duration& d)];
    [s] stays a [time_t] while [MINUTE], [HOUR] and [DAY] are
    [unsigned long], so every quotient and remainder is an unsigned one. *)
Definition Duration_print (d : Duration) (os : ostream) : ostream :=
  let MINUTE := 60 in
  let HOUR := umul MINUTE 60 in
  let DAY := umul HOUR 24 in
  let s := tv_sec (Duration_t d) in
  let '(os, s) :=
    if negb (udiv s DAY =? 0)
    then (os << put_ulong (udiv s DAY) << put_cstring "d ", to_long (umod s DAY))
    else (os, s)
  in
  let os := os << right in
  let os := os << setfill "0" << put_ulong (udiv s HOUR) << put_char ":" in
  let s := to_long (umod s HOUR) in
  let os := os << setw 2 << put_ulong (udiv s MINUTE) << put_char ":" in
  let s := to_long (umod s MINUTE) in
  let os := os << setw 2 << put_long s in
  let os :=
    if Duration_su d
    then os << put_char "." << setw 6 << setfill "0" << put_long (tv_usec (Duration_t d))
    else os
  in
  os << setfill " ".

(** [explicit Duration(const Time& t, bool showMicros = false)] *)
Definition Duration_new (t : Time) (showMicros : bool) : Duration :=
  mk_Duration (Time_t t) showMicros.

(** The text a value leaves on a stream in its initial state. *)
Definition render_Time (t : Time) : string := os_text (ostream_init << Time_print t).
Definition render_Duration (d : Duration) : string :=
  os_text (ostream_init << Duration_print d).

(** ** Objects in memory

    [Time] and [Duration] objects live at distinct addresses; a member
    function that mutates its receiver rewrites the object stored at the
    receiver's address, and a [const Time&] argument is read through its
    address. *)

Abbreviation loc := positive.

Inductive object : Set :=
| OTime (t : Time)
| ODuration (d : Duration).

Abbreviation heap := (gmap positive object).

Definition read_Time (h : heap) (l : loc) : option Time :=
  match h !! l with
  | Some (OTime t) => Some t
  | _ => None
  end.

Definition read_Duration (h : heap) (l : loc) : option Duration :=
  match h !! l with
  | Some (ODuration d) => Some d
  | _ => None
  end.

(** [Duration d(t, showMicros);] with [d] placed at [ld] and [t] read at [lt] *)
Definition construct_Duration (h : heap) (ld lt : loc) (showMicros : bool) : option heap :=
  t ← read_Time h lt;
  Some (<[ld := ODuration (Duration_new t showMicros)]> h).

(** The calls that change a [Time] object. *)
Inductive mutation : Set :=
| MAssign (rhs : loc)
| MAddAssign (rhs : loc)
| MSubAssign (rhs : loc)
| MDivAssign (denominator : Z)
| MMulAssign (multiplier : Z)
| MNow (clock : timeval)
| MFuture (clock : timeval) (secondsInFuture : Z)
| MPast (clock : timeval) (secondsInPast : Z).

Definition mutated (h : heap) (this : Time) (m : mutation) : option Time :=
  match m with
  | MAssign rhs => Time_assign this <$> read_Time h rhs
  | MAddAssign rhs => Time_add_assign this <$> read_Time h rhs
  | MSubAssign rhs => Time_sub_assign this <$> read_Time h rhs
  | MDivAssign denominator => Some (Time_div_assign this denominator)
  | MMulAssign multiplier => Some (Time_mul_assign this multiplier)
  | MNow clock => Some (now this clock)
  | MFuture clock secondsInFuture => Some (future this clock secondsInFuture)
  | MPast clock secondsInPast => Some (past this clock secondsInPast)
  end.

Definition mutate (h : heap) (l : loc) (m : mutation) : option heap :=
  this ← read_Time h l;
  this' ← mutated h this m;
  Some (<[l := OTime this']> h).

Fixpoint mutate_all (h : heap) (l : loc) (ms : list mutation) : option heap :=
  match ms with
  | [] => Some h
  | m :: ms' => h' ← mutate h l m; mutate_all h' l ms'
  end.

(** The [const Time&] argument of a mutation refers to a [Time] object. *)
Definition rhs_is_Time (h : heap) (m : mutation) : Prop :=
  match m with
  | MAssign rhs | MAddAssign rhs | MSubAssign rhs => is_Some (read_Time h rhs)
  | _ => True
  end.

(** ** The operations as the specification words them *)

(** Scalar division over exact integers: whole seconds divided first when
    there are at least [d] of them, the remainder folded into the
    microseconds; otherwise the whole value divided as microseconds. *)
Definition spec_div (t : Time) (d : Z) : Time :=
  if d <=? seconds t
  then Time_of_seconds (seconds t / d)
                       (((seconds t mod d) * 1000000 + micros t) / d)
  else Time_of_seconds 0 ((seconds t * 1000000 + micros t) / d).

(** The raw-microsecond constructor over exact integers. *)
Definition spec_Time_of_micros (m : Z) : Time :=
  Time_of_seconds (m / 1000000) (m mod 1000000).

(** The mixed-operand forms: convert the count, then combine. *)
Definition spec_plus_offset (t : Time) (m : Z) : Time :=
  Time_plus t (spec_Time_of_micros m).

Definition spec_minus_offset (t : Time) (m : Z) : Time :=
  Time_minus t (spec_Time_of_micros m).

(** The carry of an addition and the borrow of a subtraction. *)
Definition carry (a b : Time) : Z := if MAX_USECS <=? micros a + micros b then 1 else 0.
Definition borrow (a b : Time) : Z := if micros a <? micros b then 1 else 0.

(** The scalar of the comparisons over exact integers. *)
Definition total_micros (t : Time) : Z := seconds t * 1000000 + micros t.

(** The exact scalar is representable in the [suseconds_t] that
    [in_micros] returns. *)
Definition fits_long (z : Z) : bool := (- 2 ^ 63 <=? z) && (z <? 2 ^ 63).

(** A non-negative number in decimal, zero-filled on the left to [width]
    characters. *)
Definition zero_padded (width : nat) (n : Z) : string :=
  fill_string (width - String.length (pretty (Z.to_N n))) "0" +:+ pretty (Z.to_N n).

(** The text of a duration of [v] seconds: the days when there are any,
    the hours in their natural digits, the minutes and the seconds in two
    digits, and the microseconds [u] in six when asked for. *)
Definition duration_text (v : Z) (showMicros : bool) (u : Z) : string :=
  let r := v mod 86400 in
  (if v / 86400 =? 0 then "" else pretty (Z.to_N (v / 86400)) +:+ "d ")
  +:+ pretty (Z.to_N (r / 3600)) +:+ ":"
  +:+ zero_padded 2 (r mod 3600 / 60) +:+ ":"
  +:+ zero_padded 2 (r mod 3600 mod 60)
  +:+ (if showMicros then "." +:+ zero_padded 6 u else "").

(** The text of a [Duration] whose seconds are not negative. *)
Definition Duration_text (d : Duration) : string :=
  duration_text (tv_sec (Duration_t d)) (Duration_su d) (tv_usec (Duration_t d)).

(** * Properties *)

(** ** Conversions inside the range of the destination type *)

(** Side conditions at a concrete [Time]. *)
Ltac concrete :=
  cbv [seconds micros normalized well_typed is_long is_ulong is_int MAX_USECS
       Time_of_seconds Time_t tv_sec tv_usec];
  lia.

Section Conversions.

Lemma to_ulong_id z : is_ulong z -> to_ulong z = z.
Proof. unfold is_ulong, to_ulong. intros H. apply Z.mod_small. exact H. Qed.

Lemma to_long_id z : is_long z -> to_long z = z.
Proof.
  unfold is_long, to_long. intros H.
  rewrite Z.mod_small; lia.
Qed.

Lemma to_int_id z : is_int z -> to_int z = z.
Proof.
  unfold is_int, to_int. intros H.
  rewrite Z.mod_small; lia.
Qed.

Lemma to_long_is_long z : is_long (to_long z).
Proof.
  unfold is_long, to_long.
  pose proof (Z.mod_pos_bound (z + 2 ^ 63) (2 ^ 64)). lia.
Qed.

Lemma to_ulong_is_ulong z : is_ulong (to_ulong z).
Proof. unfold is_ulong, to_ulong. apply Z.mod_pos_bound. lia. Qed.

(** [to_long] only depends on the residue modulo [2 ^ 64]. *)
Lemma to_long_congr x y : x mod 2 ^ 64 = y mod 2 ^ 64 -> to_long x = to_long y.
Proof.
  unfold to_long. intros H.
  rewrite (Z.add_mod x), (Z.add_mod y), H by lia. reflexivity.
Qed.

Lemma to_long_mod x : to_long x mod 2 ^ 64 = x mod 2 ^ 64.
Proof.
  unfold to_long.
  rewrite Zminus_mod, Z.mod_mod by lia.
  rewrite <- Zminus_mod. f_equal. lia.
Qed.

Lemma to_long_to_ulong x : to_long (to_ulong x) = to_long x.
Proof. apply to_long_congr. unfold to_ulong. apply Z.mod_mod. lia. Qed.

(** The unsigned sum of products, without the inner conversions. *)
Lemma uadd_umul a b c : uadd (umul a b) c = to_ulong (a * b + c).
Proof.
  unfold uadd, umul, to_ulong.
  rewrite !Z.mod_mod by lia.
  rewrite <- Z.mul_mod by lia.
  rewrite <- Z.add_mod by lia. reflexivity.
Qed.

End Conversions.

(** ** Scalar multiplication *)

Section Multiplication.

(** What [operator *=] stores when the product of the microseconds and the
    multiplier is non-negative and its carry fits an [int]: the seconds of
    the receiver do not enter the result. *)
Lemma Time_mul_assign_fields (t : Time) (m : Z) :
  0 <= micros t * m < 1000000 * 2 ^ 31 ->
  Time_mul_assign t m =
    let p := micros t * m in
    if p >? MAX_USECS
    then Time_of_seconds (p / MAX_USECS) (p mod MAX_USECS)
    else Time_of_seconds 0 p.
Proof.
  unfold micros, MAX_USECS. intros Hp.
  unfold Time_mul_assign, lmul, udiv, umod, MAX_USECS.
  rewrite (to_long_id (tv_usec (Time_t t) * m)) by (unfold is_long; lia).
  rewrite !(to_ulong_id (tv_usec (Time_t t) * m)) by (unfold is_ulong; lia).
  rewrite (to_ulong_id 1000000) by (unfold is_ulong; lia).
  cbv zeta.
  set (p := tv_usec (Time_t t) * m) in *.
  destruct (p >? 1000000) eqn:Hgt; cbn [Time_default set_sec set_usec Time_t tv_sec tv_usec Time_assign].
  - assert (0 <= p / 1000000 < 2 ^ 31).
    { split; [apply Z.div_pos; lia | apply Z.div_lt_upper_bound; lia]. }
    pose proof (Z.mod_pos_bound p 1000000 ltac:(lia)).
    rewrite (to_int_id (p / 1000000)) by (unfold is_int; lia).
    rewrite (to_long_id (p mod 1000000)) by (unfold is_long; lia).
    unfold ladd. rewrite Z.mul_0_l, (to_long_id 0) by (unfold is_long; lia).
    rewrite Z.add_0_l, to_long_id by (unfold is_long; lia).
    reflexivity.
  - rewrite (to_long_id p) by (unfold is_long; lia).
    unfold ladd. rewrite Z.mul_0_l, (to_long_id 0) by (unfold is_long; lia).
    rewrite Z.add_0_l, to_long_id by (unfold is_long; lia).
    reflexivity.
Qed.

Lemma Time_copy_id (t : Time) : Time_copy t = t.
Proof. destruct t as [[s u]]. reflexivity. Qed.

Lemma Time_mul_fields (t : Time) (m : Z) :
  0 < m < 2 ^ 31 -> Time_mul t m = Time_mul_assign t m.
Proof.
  intros Hm. unfold Time_mul.
  rewrite Time_copy_id, to_int_id by (unfold is_int; lia). reflexivity.
Qed.

(** C1: the seconds of [t * m] should be the seconds of [t] times [m] plus
    the carry of the microseconds.  [operator *=] multiplies the seconds of
    its fresh local [r], which are zero, so the seconds of the receiver are
    lost: the product is the same as for a receiver with zero seconds, and
    [Time(1,0) * 2] is [(0,0)] and not [(2,0)], with [*] and with [*=]
    alike. *)
Theorem mul_loses_seconds (t : Time) (m : Z) :
  Time_mul t m = Time_mul (set_sec t 0) m /\
  Time_mul_assign t m = Time_mul_assign (set_sec t 0) m /\
  Time_mul (Time_of_seconds 1 0) 2 = Time_of_seconds 0 0 /\
  Time_mul_assign (Time_of_seconds 1 0) 2 = Time_of_seconds 0 0 /\
  seconds (Time_mul (Time_of_seconds 1 0) 2) <>
    seconds (Time_of_seconds 1 0) * 2 + (micros (Time_of_seconds 1 0) * 2) / MAX_USECS.
Proof. repeat split. vm_compute. discriminate. Qed.

(** C3: when the product of the microseconds and the multiplier is exactly
    [1000000] the carry branch is not taken: the microsecond field of the
    result is [1000000], outside the normalized range, as in
    [Time(0,500000) * 2 = (0,1000000)]. *)
Theorem mul_exact_million_not_carried (t : Time) (m : Z) :
  0 < m < 2 ^ 31 -> micros t * m = MAX_USECS ->
  micros (Time_mul t m) = 1000000 /\
  micros (Time_mul_assign t m) = 1000000 /\
  Time_mul t m = Time_of_seconds 0 1000000 /\
  ~ normalized (Time_mul t m).
Proof.
  intros Hm Hp.
  rewrite Time_mul_fields by assumption.
  rewrite Time_mul_assign_fields by (rewrite Hp; unfold MAX_USECS; lia).
  cbv zeta. rewrite Hp. unfold normalized, MAX_USECS. cbn.
  repeat split; try reflexivity. lia.
Qed.

Lemma mul_exact_million_not_carried_witness :
  micros (Time_mul (Time_of_seconds 0 500000) 2) = 1000000 /\
  micros (Time_mul_assign (Time_of_seconds 0 500000) 2) = 1000000 /\
  Time_mul (Time_of_seconds 0 500000) 2 = Time_of_seconds 0 1000000 /\
  ~ normalized (Time_mul (Time_of_seconds 0 500000) 2).
Proof.
  apply (mul_exact_million_not_carried (Time_of_seconds 0 500000) 2); concrete.
Defined.

End Multiplication.

(** ** Scalar division *)

Section Division.

Lemma Time_div_is_div_assign (t : Time) (d : Z) :
  0 < d < 2 ^ 31 -> Time_div t d = Time_div_assign t d.
Proof.
  intros Hd. unfold Time_div.
  rewrite Time_copy_id, to_int_id by (unfold is_int; lia). reflexivity.
Qed.

Lemma Time_div_assign_spec (t : Time) (d : Z) :
  0 <= seconds t < 2 ^ 63 -> normalized t -> 0 < d < 2 ^ 31 ->
  Time_div_assign t d = spec_div t d.
Proof.
  unfold seconds, normalized, spec_div, seconds, micros, MAX_USECS.
  intros Hs Hn Hd.
  unfold Time_div_assign. rewrite !uadd_umul. unfold MAX_USECS, udiv.
  rewrite (to_ulong_id d) by (unfold is_ulong; lia).
  rewrite Z.geb_leb.
  destruct (d <=? tv_sec (Time_t t)) eqn:Hge;
    cbn [Time_default set_sec set_usec Time_t tv_sec tv_usec Time_assign].
  - unfold ldiv, lrem.
    rewrite Z.quot_div_nonneg, Z.rem_mod_nonneg by lia.
    pose proof (Z.mod_pos_bound (tv_sec (Time_t t)) d ltac:(lia)) as Hr.
    assert (Hq : 0 <= tv_sec (Time_t t) / d <= tv_sec (Time_t t)).
    { split; [apply Z.div_pos; lia | apply Z.div_le_upper_bound; nia]. }
    rewrite (to_long_id (tv_sec (Time_t t) `mod` d)) by (unfold is_long; lia).
    rewrite (to_long_id (tv_sec (Time_t t) / d)) by (unfold is_long; lia).
    rewrite (to_ulong_id (tv_sec (Time_t t) `mod` d)) by (unfold is_ulong; lia).
    set (x := tv_sec (Time_t t) `mod` d * 1000000 + tv_usec (Time_t t)).
    rewrite !(to_ulong_id x) by (unfold is_ulong, x; lia).
    assert (0 <= x / d <= x).
    { split; [apply Z.div_pos; nia | apply Z.div_le_upper_bound; nia]. }
    rewrite to_long_id by (unfold is_long; nia).
    reflexivity.
  - apply Z.leb_gt in Hge.
    set (x := tv_sec (Time_t t) * 1000000 + tv_usec (Time_t t)).
    rewrite !(to_ulong_id x) by (unfold is_ulong, x; lia).
    assert (0 <= x / d <= x).
    { split; [apply Z.div_pos; nia | apply Z.div_le_upper_bound; nia]. }
    rewrite to_long_id by (unfold is_long; nia).
    reflexivity.
Qed.

(** C4: for a normalized, non-negative [t] and a positive denominator [d],
    [t / d] and [t /= d] follow the two-branch algorithm: with at least [d]
    seconds, the seconds are [seconds / d] and the microseconds
    [((seconds % d) * 1000000 + micros) / d]; otherwise the seconds are [0]
    and the microseconds [(seconds * 1000000 + micros) / d].  So
    [Time(10,0) / 4 = (2,500000)] and [Time(0,100) / 1000 = (0,0)]. *)
Theorem div_two_branches (t : Time) (d : Z) :
  0 <= seconds t < 2 ^ 63 -> normalized t -> 0 < d < 2 ^ 31 ->
  Time_div t d = spec_div t d /\
  Time_div_assign t d = spec_div t d /\
  Time_div (Time_of_seconds 10 0) 4 = Time_of_seconds 2 500000 /\
  Time_div (Time_of_seconds 0 100) 1000 = Time_of_seconds 0 0.
Proof.
  intros Hs Hn Hd.
  rewrite Time_div_is_div_assign, Time_div_assign_spec by assumption.
  repeat split.
Qed.

Lemma div_two_branches_witness :
  Time_div (Time_of_seconds 10 0) 4 = spec_div (Time_of_seconds 10 0) 4 /\
  Time_div_assign (Time_of_seconds 10 0) 4 = spec_div (Time_of_seconds 10 0) 4 /\
  Time_div (Time_of_seconds 10 0) 4 = Time_of_seconds 2 500000 /\
  Time_div (Time_of_seconds 0 100) 1000 = Time_of_seconds 0 0.
Proof.
  apply (div_two_branches (Time_of_seconds 10 0) 4); concrete.
Defined.

Lemma Time_div_assign_negative (t : Time) (d : Z) :
  seconds t < 0 -> 0 < d < 2 ^ 31 ->
  Time_div_assign t d =
    Time_of_seconds 0 (to_long (((seconds t * MAX_USECS + micros t) mod 2 ^ 64) / d)).
Proof.
  unfold seconds, micros. intros Hs Hd.
  unfold Time_div_assign. rewrite Z.geb_leb.
  destruct (d <=? tv_sec (Time_t t)) eqn:Hge; [apply Z.leb_le in Hge; lia |].
  cbn [Time_default set_sec set_usec Time_t tv_sec tv_usec Time_assign].
  rewrite uadd_umul. unfold udiv.
  rewrite (to_ulong_id d) by (unfold is_ulong; lia).
  rewrite (to_ulong_id (to_ulong _)) by apply to_ulong_is_ulong.
  reflexivity.
Qed.

(** C10: for a negative seconds field and a positive denominator [d] the
    else branch runs on the wrapped unsigned microsecond count: the seconds
    of the result are [0] and its microseconds are the quotient
    [((seconds * 1000000 + micros) mod 2 ^ 64) / d] stored in a signed field.
    From [d = 2] on the quotient is below [2 ^ 63] and is stored as it is;
    with [d = 1] it may not fit and then reads back negative. *)
Theorem div_negative_seconds (t : Time) (d : Z) :
  seconds t < 0 -> 0 < d < 2 ^ 31 ->
  let q := ((seconds t * 1000000 + micros t) mod 2 ^ 64) / d in
  seconds (Time_div t d) = 0 /\
  micros (Time_div t d) = (if 2 <=? d then q else to_long q) /\
  Time_div_assign t d = Time_div t d.
Proof.
  intros Hs Hd q.
  rewrite Time_div_is_div_assign, Time_div_assign_negative by assumption.
  fold q. unfold MAX_USECS. fold q.
  cbn [seconds micros Time_of_seconds Time_t tv_sec tv_usec].
  repeat split.
  destruct (2 <=? d) eqn:H2; [| reflexivity].
  apply Z.leb_le in H2. apply to_long_id.
  pose proof (Z.mod_pos_bound (seconds t * 1000000 + micros t) (2 ^ 64) ltac:(lia)) as Hb.
  unfold is_long, q. split.
  - assert (0 <= (seconds t * 1000000 + micros t) `mod` 2 ^ 64 / d) by (apply Z.div_pos; lia). lia.
  - apply Z.div_lt_upper_bound; lia.
Qed.

Lemma div_negative_seconds_witness :
  seconds (Time_div (Time_of_seconds (-1) 0) 2) = 0 /\
  micros (Time_div (Time_of_seconds (-1) 0) 2) = (2 ^ 64 - 1000000) / 2 /\
  Time_div_assign (Time_of_seconds (-1) 0) 2 = Time_div (Time_of_seconds (-1) 0) 2.
Proof.
  apply (div_negative_seconds (Time_of_seconds (-1) 0) 2); concrete.
Defined.

(** With denominator [1] the stored microseconds of [Time(-1,0) / 1] are
    [-1000000], not the unsigned quotient [2 ^ 64 - 1000000]. *)
Lemma div_negative_seconds_by_one :
  micros (Time_div (Time_of_seconds (-1) 0) 1) = -1000000 /\
  micros (Time_div (Time_of_seconds (-1) 0) 1) <>
    ((seconds (Time_of_seconds (-1) 0) * 1000000 + micros (Time_of_seconds (-1) 0))
       mod 2 ^ 64) / 1.
Proof. split; vm_compute; [reflexivity | discriminate]. Qed.

End Division.

(** ** Addition and subtraction *)

Section AddSub.

Lemma to_long_add_l x y : to_long (to_long x + y) = to_long (x + y).
Proof.
  apply to_long_congr.
  rewrite Z.add_mod, to_long_mod, <- Z.add_mod by lia. reflexivity.
Qed.

Lemma to_long_sub_l x y : to_long (to_long x - y) = to_long (x - y).
Proof.
  apply to_long_congr.
  rewrite Zminus_mod, to_long_mod, <- Zminus_mod. reflexivity.
Qed.

Lemma Time_add_assign_fields (a b : Time) :
  normalized a -> normalized b ->
  Time_add_assign a b =
    Time_of_seconds (to_long (seconds a + seconds b + carry a b))
                    (micros a + micros b - carry a b * MAX_USECS).
Proof.
  unfold normalized, carry, seconds, micros, MAX_USECS. intros Ha Hb.
  unfold Time_add_assign, timeradd, ladd, lsub.
  rewrite (to_long_id (tv_usec (Time_t a) + tv_usec (Time_t b)))
    by (unfold is_long; lia).
  destruct (1000000 <=? tv_usec (Time_t a) + tv_usec (Time_t b)) eqn:Hc;
    unfold set_usec, set_sec, Time_of_seconds; cbn [Time_t tv_sec tv_usec].
  - apply Z.leb_le in Hc.
    rewrite to_long_add_l.
    rewrite (to_long_id (_ - 1000000)) by (unfold is_long; lia).
    do 2 f_equal; lia.
  - apply Z.leb_gt in Hc.
    do 3 f_equal; lia.
Qed.

Lemma Time_sub_assign_fields (a b : Time) :
  normalized a -> normalized b ->
  Time_sub_assign a b =
    Time_of_seconds (to_long (seconds a - seconds b - borrow a b))
                    (micros a - micros b + borrow a b * MAX_USECS).
Proof.
  unfold normalized, borrow, seconds, micros, MAX_USECS. intros Ha Hb.
  unfold Time_sub_assign, timersub, ladd, lsub.
  rewrite (to_long_id (tv_usec (Time_t a) - tv_usec (Time_t b)))
    by (unfold is_long; lia).
  destruct (tv_usec (Time_t a) - tv_usec (Time_t b) <? 0) eqn:Hc;
    unfold set_usec, set_sec, Time_of_seconds; cbn [Time_t tv_sec tv_usec].
  - apply Z.ltb_lt in Hc.
    destruct (tv_usec (Time_t a) <? tv_usec (Time_t b)) eqn:Hw;
      [| apply Z.ltb_ge in Hw; lia].
    rewrite to_long_sub_l.
    rewrite (to_long_id (_ + 1000000)) by (unfold is_long; lia).
    do 2 f_equal; lia.
  - apply Z.ltb_ge in Hc.
    destruct (tv_usec (Time_t a) <? tv_usec (Time_t b)) eqn:Hw;
      [apply Z.ltb_lt in Hw; lia |].
    do 3 f_equal; lia.
Qed.

Lemma carry_range a b : 0 <= carry a b <= 1.
Proof. unfold carry. destruct (_ <=? _); lia. Qed.

Lemma borrow_range a b : 0 <= borrow a b <= 1.
Proof. unfold borrow. destruct (_ <? _); lia. Qed.

Lemma Time_plus_normalized (a b : Time) :
  normalized a -> normalized b -> normalized (Time_plus a b).
Proof.
  intros Ha Hb. unfold Time_plus.
  rewrite Time_copy_id, Time_add_assign_fields by assumption.
  revert Ha Hb. unfold normalized, carry, micros, MAX_USECS. cbn.
  intros Ha Hb.
  destruct (1000000 <=? tv_usec (Time_t a) + tv_usec (Time_t b)) eqn:Hc;
    [apply Z.leb_le in Hc | apply Z.leb_gt in Hc]; lia.
Qed.

Lemma Time_minus_normalized (a b : Time) :
  normalized a -> normalized b -> normalized (Time_minus a b).
Proof.
  intros Ha Hb. unfold Time_minus.
  rewrite Time_copy_id, Time_sub_assign_fields by assumption.
  revert Ha Hb. unfold normalized, borrow, micros, MAX_USECS. cbn.
  intros Ha Hb.
  destruct (tv_usec (Time_t a) <? tv_usec (Time_t b)) eqn:Hc;
    [apply Z.ltb_lt in Hc | apply Z.ltb_ge in Hc]; lia.
Qed.

(** C5: for [a] and [b] with microseconds in [[0, 1000000)], the results of
    [a + b], [a - b], [a += b] and [a -= b] have microseconds in
    [[0, 1000000)]; the microseconds are the sum less the carry (the
    difference plus the borrow) and the seconds take the carry (give the
    borrow). *)
Theorem add_sub_normalized (a b : Time) :
  normalized a -> normalized b ->
  (normalized (Time_plus a b) /\ normalized (Time_minus a b) /\
   normalized (Time_add_assign a b) /\ normalized (Time_sub_assign a b)) /\
  (seconds (Time_plus a b) = to_long (seconds a + seconds b + carry a b) /\
   micros (Time_plus a b) = micros a + micros b - carry a b * MAX_USECS) /\
  (seconds (Time_minus a b) = to_long (seconds a - seconds b - borrow a b) /\
   micros (Time_minus a b) = micros a - micros b + borrow a b * MAX_USECS) /\
  Time_add_assign a b = Time_plus a b /\
  Time_sub_assign a b = Time_minus a b.
Proof.
  intros Ha Hb.
  pose proof (Time_plus_normalized a b Ha Hb) as Hp.
  pose proof (Time_minus_normalized a b Ha Hb) as Hm.
  unfold Time_plus, Time_minus in *. rewrite Time_copy_id in *.
  repeat split; try apply Hp; try apply Hm.
  - rewrite Time_add_assign_fields by assumption. reflexivity.
  - rewrite Time_add_assign_fields by assumption. reflexivity.
  - rewrite Time_sub_assign_fields by assumption. reflexivity.
  - rewrite Time_sub_assign_fields by assumption. reflexivity.
Qed.

Lemma add_sub_normalized_witness :
  let a := Time_of_seconds 1 700000 in
  let b := Time_of_seconds 2 600000 in
  (normalized (Time_plus a b) /\ normalized (Time_minus a b) /\
   normalized (Time_add_assign a b) /\ normalized (Time_sub_assign a b)) /\
  (seconds (Time_plus a b) = 4 /\ micros (Time_plus a b) = 300000) /\
  (seconds (Time_minus a b) = -1 /\ micros (Time_minus a b) = 100000) /\
  Time_add_assign a b = Time_plus a b /\
  Time_sub_assign a b = Time_minus a b.
Proof.
  apply (add_sub_normalized (Time_of_seconds 1 700000) (Time_of_seconds 2 600000));
    concrete.
Defined.

(** C6: for valid [a] and [b], [(a + b) - b] is [a] field by field, and
    [==] holds between them. *)
Theorem add_then_sub_cancels (a b : Time) :
  well_typed a -> normalized a -> normalized b ->
  Time_minus (Time_plus a b) b = a /\
  Time_eq (Time_minus (Time_plus a b) b) a = true.
Proof.
  intros [Hsa _] Ha Hb.
  assert (Heq : Time_minus (Time_plus a b) b = a).
  { pose proof (Time_plus_normalized a b Ha Hb) as Hn.
    unfold Time_minus. rewrite Time_copy_id.
    rewrite Time_sub_assign_fields by assumption.
    unfold Time_plus in *. rewrite Time_copy_id in *.
    rewrite Time_add_assign_fields in * by assumption.
    revert Ha Hb Hn Hsa.
    unfold normalized, borrow, carry, seconds, micros, MAX_USECS, Time_of_seconds.
    cbn [Time_t tv_sec tv_usec].
    destruct a as [[sa ua]], b as [[sb ub]]. cbn [Time_t tv_sec tv_usec].
    intros Ha Hb Hn Hsa.
    destruct (1000000 <=? ua + ub) eqn:Hc;
      [apply Z.leb_le in Hc | apply Z.leb_gt in Hc].
    - destruct (ua + ub - 1 * 1000000 <? ub) eqn:Hw;
        [| apply Z.ltb_ge in Hw; lia].
      f_equal. f_equal; [| lia].
      replace (to_long (sa + sb + 1) - sb - 1)
        with (to_long (sa + sb + 1) + (- sb - 1)) by lia.
      rewrite to_long_add_l.
      replace (sa + sb + 1 + (- sb - 1)) with sa by lia.
      apply to_long_id, Hsa.
    - destruct (ua + ub - 0 * 1000000 <? ub) eqn:Hw;
        [apply Z.ltb_lt in Hw; lia |].
      f_equal. f_equal; [| lia].
      replace (to_long (sa + sb + 0) - sb - 0)
        with (to_long (sa + sb + 0) + (- sb - 0)) by lia.
      rewrite to_long_add_l.
      replace (sa + sb + 0 + (- sb - 0)) with sa by lia.
      apply to_long_id, Hsa. }
  split; [exact Heq |].
  rewrite Heq. unfold Time_eq. apply Z.eqb_refl.
Qed.

Lemma add_then_sub_cancels_witness :
  let a := Time_of_seconds 1 700000 in
  let b := Time_of_seconds 2 600000 in
  Time_minus (Time_plus a b) b = a /\
  Time_eq (Time_minus (Time_plus a b) b) a = true.
Proof.
  apply (add_then_sub_cancels (Time_of_seconds 1 700000) (Time_of_seconds 2 600000));
    concrete.
Defined.

(** The raw-microsecond constructor, for an argument of its type. *)
Lemma Time_of_micros_spec (m : Z) :
  is_ulong m -> Time_of_micros m = spec_Time_of_micros m.
Proof.
  unfold is_ulong. intros Hm.
  unfold Time_of_micros, spec_Time_of_micros, udiv, umod, MAX_USECS, Time_of_seconds.
  rewrite (to_ulong_id m), (to_ulong_id 1000000) by (unfold is_ulong; lia).
  assert (0 <= m / 1000000 <= m).
  { split; [apply Z.div_pos; lia | apply Z.div_le_upper_bound; lia]. }
  assert (m / 1000000 < 2 ^ 63) by (apply Z.div_lt_upper_bound; lia).
  pose proof (Z.mod_pos_bound m 1000000 ltac:(lia)).
  rewrite !to_long_id by (unfold is_long; lia).
  reflexivity.
Qed.

(** C8: for an unsigned microsecond count [m], [t + m] is [t + Time(m)] and
    [t - m] is [t - Time(m)], where [Time(m)] has seconds [m / 1000000] and
    microseconds [m % 1000000] and the combine is the one of two [Time]s. *)
Theorem offset_forms_convert_then_combine (t : Time) (m : Z) :
  is_ulong m ->
  Time_plus_offset t m = spec_plus_offset t m /\
  Time_minus_offset t m = spec_minus_offset t m /\
  Time_plus_offset t m = Time_plus t (Time_of_micros m) /\
  Time_minus_offset t m = Time_minus t (Time_of_micros m) /\
  seconds (Time_of_micros m) = m / 1000000 /\
  micros (Time_of_micros m) = m mod 1000000.
Proof.
  intros Hm.
  unfold Time_plus_offset, Time_minus_offset, spec_plus_offset, spec_minus_offset.
  rewrite Time_of_micros_spec by assumption.
  repeat split.
Qed.

Lemma offset_forms_convert_then_combine_witness :
  let t := Time_of_seconds 1 700000 in
  Time_plus_offset t 2600000 = Time_of_seconds 4 300000 /\
  Time_minus_offset t 2600000 = Time_of_seconds (-1) 100000 /\
  Time_plus_offset t 2600000 = Time_plus t (Time_of_micros 2600000) /\
  Time_minus_offset t 2600000 = Time_minus t (Time_of_micros 2600000) /\
  seconds (Time_of_micros 2600000) = 2 /\
  micros (Time_of_micros 2600000) = 600000.
Proof.
  apply (offset_forms_convert_then_combine (Time_of_seconds 1 700000) 2600000);
    concrete.
Defined.

End AddSub.

(** ** Comparison *)

Section Comparison.

Lemma in_micros_wrap (t : Time) : in_micros t = to_long (total_micros t).
Proof.
  unfold in_micros, total_micros, seconds, micros, MAX_USECS.
  rewrite uadd_umul. apply to_long_to_ulong.
Qed.

Lemma in_micros_exact (t : Time) :
  fits_long (total_micros t) = true -> in_micros t = total_micros t.
Proof.
  unfold fits_long. intros H.
  apply andb_true_iff in H as [H1 H2].
  apply Z.leb_le in H1. apply Z.ltb_lt in H2.
  rewrite in_micros_wrap. apply to_long_id. split; assumption.
Qed.

(** C7: for [a] and [b] whose total microseconds
    [seconds * 1000000 + microseconds] fit a signed 64-bit [long], [a < b]
    holds exactly when the total of [a] is less than that of [b]; each of
    the six operators is the matching comparison of that scalar, so together
    they form a total order consistent with it, and [==] is exact equality
    of the scalar, with no tolerance. *)
Theorem comparisons_on_total_micros (a b c : Time) :
  fits_long (total_micros a) = true ->
  fits_long (total_micros b) = true ->
  fits_long (total_micros c) = true ->
  ((Time_lt a b = true <-> total_micros a < total_micros b) /\
   (Time_le a b = true <-> total_micros a <= total_micros b) /\
   (Time_gt a b = true <-> total_micros a > total_micros b) /\
   (Time_ge a b = true <-> total_micros a >= total_micros b) /\
   (Time_eq a b = true <-> total_micros a = total_micros b) /\
   (Time_ne a b = true <-> total_micros a <> total_micros b)) /\
  (Time_le a a = true /\
   Time_le a b || Time_le b a = true /\
   implb (Time_le a b && Time_le b c) (Time_le a c) = true /\
   implb (Time_le a b && Time_le b a) (Time_eq a b) = true) /\
  in_micros a = total_micros a.
Proof.
  intros Fa Fb Fc.
  unfold Time_lt, Time_le, Time_gt, Time_ge, Time_ne, Time_eq.
  rewrite !in_micros_exact by assumption.
  rewrite Z.gtb_ltb, Z.geb_leb.
  split; [| split; [| reflexivity]].
  - split; [apply Z.ltb_lt |].
    split; [apply Z.leb_le |].
    split; [rewrite Z.ltb_lt; lia |].
    split; [rewrite Z.leb_le; lia |].
    split; [apply Z.eqb_eq |].
    destruct (Z.eqb_spec (total_micros a) (total_micros b)); cbn; split; intros H;
      solve [discriminate | reflexivity | assumption | contradiction].
  - destruct (Z.leb_spec (total_micros a) (total_micros a)); [| lia].
    destruct (Z.leb_spec (total_micros a) (total_micros b));
      destruct (Z.leb_spec (total_micros b) (total_micros a));
      destruct (Z.leb_spec (total_micros b) (total_micros c));
      destruct (Z.leb_spec (total_micros a) (total_micros c));
      destruct (Z.eqb_spec (total_micros a) (total_micros b));
      cbn; repeat split; lia.
Qed.

Lemma comparisons_on_total_micros_witness :
  let a := Time_of_seconds 1 700000 in
  let b := Time_of_seconds 2 600000 in
  let c := Time_of_seconds 3 900000 in
  ((Time_lt a b = true <-> total_micros a < total_micros b) /\
   (Time_le a b = true <-> total_micros a <= total_micros b) /\
   (Time_gt a b = true <-> total_micros a > total_micros b) /\
   (Time_ge a b = true <-> total_micros a >= total_micros b) /\
   (Time_eq a b = true <-> total_micros a = total_micros b) /\
   (Time_ne a b = true <-> total_micros a <> total_micros b)) /\
  (Time_le a a = true /\
   Time_le a b || Time_le b a = true /\
   implb (Time_le a b && Time_le b c) (Time_le a c) = true /\
   implb (Time_le a b && Time_le b a) (Time_eq a b) = true) /\
  in_micros a = total_micros a.
Proof.
  apply (comparisons_on_total_micros (Time_of_seconds 1 700000)
           (Time_of_seconds 2 600000) (Time_of_seconds 3 900000));
    vm_compute; reflexivity.
Defined.

(** Beyond the range of a [long] the scalar wraps: [Time(9223372036855,0)]
    compares less than the zero [Time] although its total is greater, and
    [Time(2 ^ 58, 0)] compares [==] to the zero [Time] although the totals
    differ. *)
Lemma comparisons_wrap_beyond_long :
  (Time_lt (Time_of_seconds 9223372036855 0) Time_default = true /\
   ~ total_micros (Time_of_seconds 9223372036855 0) < total_micros Time_default) /\
  (Time_eq (Time_of_seconds (2 ^ 58) 0) Time_default = true /\
   total_micros (Time_of_seconds (2 ^ 58) 0) <> total_micros Time_default).
Proof.
  split; split; vm_compute; try reflexivity; discriminate.
Qed.

End Comparison.

(** ** Rendering of a [Duration] *)

Section Rendering.

(** C2: a streamed [Duration] shows days, hours, minutes and seconds.  The
    minutes and the seconds are padded to two digits; the hours are written
    without a field width and so keep their natural digits:
    [Duration(Time(3661,0))] renders [1:01:01], [Duration(Time(90000,0))]
    renders [1d 1:00:00] and [Duration(Time(5,250000), true)] renders
    [0:00:05.250000]. *)
Theorem Duration_render_examples :
  render_Duration (Duration_new (Time_of_seconds 3661 0) false) = "1:01:01"%string /\
  render_Duration (Duration_new (Time_of_seconds 90000 0) false) = "1d 1:00:00"%string /\
  render_Duration (Duration_new (Time_of_seconds 5 250000) true) = "0:00:05.250000"%string.
Proof. repeat split; vm_compute; reflexivity. Qed.

(** The stream form of a [Time]: seconds, a dot, six digits, [s]. *)
Example Time_render_example :
  render_Time (Time_of_seconds 1700000000 500) = "1700000000.000500s"%string.
Proof. vm_compute. reflexivity. Qed.

(** The hours of [Duration(Time(3661,0))] are not padded to two digits. *)
Lemma Duration_render_hours_unpadded :
  render_Duration (Duration_new (Time_of_seconds 3661 0) false) <> "01:01:01"%string /\
  render_Duration (Duration_new (Time_of_seconds 90000 0) false) <> "1d 01:00:00"%string /\
  render_Duration (Duration_new (Time_of_seconds 5 250000) true) <> "00:00:05.250000"%string.
Proof. repeat split; vm_compute; discriminate. Qed.

End Rendering.

(** ** A [Duration] keeps its own copy *)

Section Capture.

Implicit Types (h : heap) (l r : loc) (m : mutation).

Lemma read_Time_insert h l r (t : Time) :
  read_Time (<[l := OTime t]> h) r = if decide (l = r) then Some t else read_Time h r.
Proof.
  unfold read_Time. rewrite lookup_insert.
  destruct (decide (l = r)); reflexivity.
Qed.

Lemma mutated_is_Some h (this : Time) m :
  rhs_is_Time h m -> is_Some (mutated h this m).
Proof.
  destruct m; cbn; intros H; try (eexists; reflexivity);
    destruct H as [x ->]; eexists; reflexivity.
Qed.

(** A mutation of the object at [l] succeeds and touches no other address. *)
Lemma mutate_frame h l m :
  is_Some (read_Time h l) -> rhs_is_Time h m ->
  exists this' : Time, mutate h l m = Some (<[l := OTime this']> h).
Proof.
  intros [this Hl] Hm.
  destruct (mutated_is_Some h this m Hm) as [this' Hthis'].
  exists this'. unfold mutate. rewrite Hl. cbn. rewrite Hthis'. reflexivity.
Qed.

Lemma rhs_is_Time_insert h l (t : Time) m :
  rhs_is_Time h m -> rhs_is_Time (<[l := OTime t]> h) m.
Proof.
  destruct m; cbn; try (intros; exact I);
    rewrite read_Time_insert; destruct (decide (l = rhs)); eauto.
Qed.

Lemma mutate_all_frame (ms : list mutation) : forall h l ld,
  l <> ld -> is_Some (read_Time h l) -> Forall (rhs_is_Time h) ms ->
  exists h', mutate_all h l ms = Some h' /\ h' !! ld = h !! ld.
Proof.
  induction ms as [| m ms IH]; intros h l ld Hne Hl Hms.
  - exists h. split; reflexivity.
  - apply Forall_cons in Hms as [Hm Hms].
    destruct (mutate_frame h l m Hl Hm) as [this' Hstep].
    destruct (IH (<[l := OTime this']> h) l ld Hne) as [h' [Hrun Hld]].
    + rewrite read_Time_insert, decide_True by reflexivity. eexists; reflexivity.
    + eapply Forall_impl; [exact Hms |].
      intros m'. apply rhs_is_Time_insert.
    + exists h'. split.
      * cbn. rewrite Hstep. cbn. exact Hrun.
      * rewrite Hld. apply lookup_insert_ne. exact Hne.
Qed.

(** C9: a [Duration] constructed from [t] holds a copy of the fields of
    [t].  Whatever sequence of [=], [+=], [-=], [/=], [*=], [now], [future]
    and [past] is then applied to [t], the sequence runs and the captured
    fields of the [Duration], its flag and its rendering stay what they
    were at construction. *)
Theorem Duration_unaffected_by_mutation
    (h : heap) (lt ld : loc) (t : Time) (showMicros : bool) (ms : list mutation) :
  read_Time h lt = Some t -> h !! ld = None -> Forall (rhs_is_Time h) ms ->
  exists h1 h2 : heap,
    construct_Duration h ld lt showMicros = Some h1 /\
    read_Duration h1 ld = Some (mk_Duration (Time_t t) showMicros) /\
    mutate_all h1 lt ms = Some h2 /\
    read_Duration h2 ld = Some (mk_Duration (Time_t t) showMicros) /\
    render_Duration <$> read_Duration h2 ld = render_Duration <$> read_Duration h1 ld.
Proof.
  intros Ht Hfresh Hms.
  assert (Hne : lt <> ld).
  { intros ->. unfold read_Time in Ht. rewrite Hfresh in Ht. discriminate. }
  set (d := mk_Duration (Time_t t) showMicros).
  set (h1 := <[ld := ODuration d]> h).
  assert (Hd1 : read_Duration h1 ld = Some d).
  { unfold read_Duration, h1. rewrite lookup_insert_eq. reflexivity. }
  assert (Ht1 : read_Time h1 lt = Some t).
  { unfold read_Time, h1. rewrite lookup_insert_ne by congruence. exact Ht. }
  destruct (mutate_all_frame ms h1 lt ld Hne) as [h2 [Hrun Hld]].
  - rewrite Ht1. eexists; reflexivity.
  - eapply Forall_impl; [exact Hms |].
    intros m. destruct m; cbn; try (intros; exact I);
      unfold read_Time, h1; intros [x Hx];
      (destruct (decide (ld = rhs)) as [-> | Hr];
       [rewrite Hfresh in Hx; discriminate
       | rewrite lookup_insert_ne by exact Hr; eauto]).
  - assert (Hd2 : read_Duration h2 ld = Some d).
    { unfold read_Duration in *. rewrite Hld. exact Hd1. }
    exists h1, h2. repeat split; try assumption.
    + unfold construct_Duration. rewrite Ht. reflexivity.
    + rewrite Hd1, Hd2. reflexivity.
Qed.

Lemma Duration_unaffected_by_mutation_witness :
  let h : heap := {[ 1%positive := OTime (Time_of_seconds 3661 0);
                     2%positive := OTime (Time_of_seconds 5 250000) ]} in
  let ms := [MAddAssign 2%positive; MMulAssign 3; MDivAssign 2;
             MSubAssign 1%positive; MAssign 2%positive;
             MNow (mk_timeval 90000 7); MFuture (mk_timeval 90000 7) 60;
             MPast (mk_timeval 90000 7) 60] in
  exists h1 h2 : heap,
    construct_Duration h 3%positive 1%positive false = Some h1 /\
    read_Duration h1 3%positive = Some (mk_Duration (mk_timeval 3661 0) false) /\
    mutate_all h1 1%positive ms = Some h2 /\
    read_Duration h2 3%positive = Some (mk_Duration (mk_timeval 3661 0) false) /\
    render_Duration <$> read_Duration h2 3%positive =
      render_Duration <$> read_Duration h1 3%positive.
Proof.
  intros h ms.
  apply (Duration_unaffected_by_mutation h 1%positive 3%positive
           (Time_of_seconds 3661 0) false ms).
  - vm_compute. reflexivity.
  - vm_compute. reflexivity.
  - repeat constructor; vm_compute; eexists; reflexivity.
Defined.

End Capture.

(** * Further properties of the code *)

(** ** The raw-microsecond constructor and [in_micros] *)

Section RawMicros.

Lemma to_long_add_r x y : to_long (x + to_long y) = to_long (x + y).
Proof. rewrite Z.add_comm, to_long_add_l, Z.add_comm. reflexivity. Qed.

Lemma to_long_add_l3 x y z : to_long (to_long x + y + z) = to_long (x + y + z).
Proof. rewrite <- !Z.add_assoc. apply to_long_add_l. Qed.

Lemma to_long_add_m3 x y z : to_long (x + to_long y + z) = to_long (x + y + z).
Proof.
  rewrite (Z.add_comm x (to_long y)), to_long_add_l3, (Z.add_comm y x).
  reflexivity.
Qed.

Lemma to_long_mul_add x k y : to_long (to_long x * k + y) = to_long (x * k + y).
Proof.
  apply to_long_congr.
  rewrite Z.add_mod, Z.mul_mod, to_long_mod by lia.
  rewrite <- Z.mul_mod, <- Z.add_mod by lia. reflexivity.
Qed.

(** [Time(m)] for an [unsigned long] count [m] is normalized, has
    non-negative seconds and holds exactly [m] microseconds in total;
    [in_micros] reads the count back, as the signed 64-bit value of [m]. *)
Theorem Time_of_micros_holds_count (m : Z) :
  is_ulong m ->
  normalized (Time_of_micros m) /\
  0 <= seconds (Time_of_micros m) /\
  total_micros (Time_of_micros m) = m /\
  in_micros (Time_of_micros m) = to_long m.
Proof.
  intros Hm. rewrite in_micros_wrap, Time_of_micros_spec by assumption.
  unfold is_ulong in Hm.
  unfold spec_Time_of_micros, normalized, total_micros, seconds, micros, MAX_USECS.
  cbn [Time_of_seconds Time_t tv_sec tv_usec].
  pose proof (Z.mod_pos_bound m 1000000 ltac:(lia)).
  pose proof (Z.div_mod m 1000000 ltac:(lia)).
  assert (0 <= m / 1000000) by (apply Z.div_pos; lia).
  assert (Ht : m / 1000000 * 1000000 + m mod 1000000 = m) by lia.
  rewrite Ht. repeat split; lia.
Qed.

Lemma Time_of_micros_holds_count_witness :
  normalized (Time_of_micros 2600000) /\
  0 <= seconds (Time_of_micros 2600000) /\
  total_micros (Time_of_micros 2600000) = 2600000 /\
  in_micros (Time_of_micros 2600000) = to_long 2600000.
Proof. apply (Time_of_micros_holds_count 2600000). concrete. Defined.

(** For a normalized [t] with non-negative seconds whose total fits a
    [long], the raw-microsecond constructor applied to [t.in_micros()]
    converted to [unsigned long], as in
    [Time(static_cast<unsigned long>(t.in_micros()))], gives [t] back.  The
    conversion is needed to select that constructor: [in_micros()] returns
    a [suseconds_t]. *)
Theorem Time_of_micros_in_micros (t : Time) :
  normalized t -> 0 <= seconds t -> fits_long (total_micros t) = true ->
  Time_of_micros (to_ulong (in_micros t)) = t.
Proof.
  intros Hn Hs Hf. rewrite in_micros_exact by assumption.
  unfold fits_long in Hf. apply andb_true_iff in Hf as [_ Hf].
  apply Z.ltb_lt in Hf.
  revert Hn Hs Hf. unfold normalized, total_micros, seconds, micros, MAX_USECS.
  destruct t as [[s u]]. cbn [Time_t tv_sec tv_usec]. intros Hn Hs Hf.
  rewrite to_ulong_id by (unfold is_ulong; lia).
  rewrite Time_of_micros_spec by (unfold is_ulong; lia).
  unfold spec_Time_of_micros, Time_of_seconds.
  rewrite Z.div_add_l, Z.div_small, Z.add_0_r by lia.
  rewrite Z.add_comm, Z.mod_add, Z.mod_small by lia.
  reflexivity.
Qed.

Lemma Time_of_micros_in_micros_witness :
  Time_of_micros (to_ulong (in_micros (Time_of_seconds 2 600000))) =
    Time_of_seconds 2 600000.
Proof.
  apply (Time_of_micros_in_micros (Time_of_seconds 2 600000)).
  - concrete.
  - concrete.
  - vm_compute. reflexivity.
Defined.

(** For a normalized [t], [millis()] is the whole number of milliseconds in
    the microsecond field: between [0] and [999], with less than a
    millisecond left over. *)
Theorem millis_of_normalized (t : Time) :
  normalized t ->
  0 <= millis t < 1000 /\
  millis t * 1000 <= micros t < millis t * 1000 + 1000.
Proof.
  unfold normalized, millis, micros, MAX_USECS, ldiv. intros Hn.
  rewrite Z.quot_div_nonneg by lia.
  assert (0 <= tv_usec (Time_t t) / 1000 < 1000).
  { split; [apply Z.div_pos; lia | apply Z.div_lt_upper_bound; lia]. }
  rewrite to_long_id by (unfold is_long; lia).
  pose proof (Z.div_mod (tv_usec (Time_t t)) 1000 ltac:(lia)).
  pose proof (Z.mod_pos_bound (tv_usec (Time_t t)) 1000 ltac:(lia)).
  lia.
Qed.

Lemma millis_of_normalized_witness :
  0 <= millis (Time_of_seconds 5 250999) < 1000 /\
  millis (Time_of_seconds 5 250999) * 1000 <= micros (Time_of_seconds 5 250999)
    < millis (Time_of_seconds 5 250999) * 1000 + 1000.
Proof. apply (millis_of_normalized (Time_of_seconds 5 250999)). concrete. Defined.

End RawMicros.

(** ** The algebra of [+] and [-] *)

Section Algebra.

Lemma Time_plus_fields (a b : Time) :
  normalized a -> normalized b ->
  Time_plus a b =
    Time_of_seconds (to_long (seconds a + seconds b + carry a b))
                    (micros a + micros b - carry a b * MAX_USECS).
Proof.
  intros Ha Hb. unfold Time_plus. rewrite Time_copy_id.
  apply Time_add_assign_fields; assumption.
Qed.

Lemma Time_minus_fields (a b : Time) :
  normalized a -> normalized b ->
  Time_minus a b =
    Time_of_seconds (to_long (seconds a - seconds b - borrow a b))
                    (micros a - micros b + borrow a b * MAX_USECS).
Proof.
  intros Ha Hb. unfold Time_minus. rewrite Time_copy_id.
  apply Time_sub_assign_fields; assumption.
Qed.

Lemma Time_default_normalized : normalized Time_default.
Proof. unfold normalized, MAX_USECS. cbn. lia. Qed.

(** Adding or subtracting the default-constructed zero leaves a valid
    [Time] as it is. *)
Theorem plus_minus_zero (a : Time) :
  well_typed a -> normalized a ->
  Time_plus a Time_default = a /\ Time_minus a Time_default = a.
Proof.
  intros [Hs _] Ha.
  rewrite Time_plus_fields, Time_minus_fields
    by (assumption || apply Time_default_normalized).
  revert Hs Ha. unfold normalized, carry, borrow, seconds, micros, MAX_USECS.
  destruct a as [[s u]]. cbn [Time_default set_sec set_usec Time_t tv_sec tv_usec].
  intros Hs Ha.
  destruct (1000000 <=? u + 0) eqn:Hc; [apply Z.leb_le in Hc; lia |].
  destruct (u <? 0) eqn:Hw; [apply Z.ltb_lt in Hw; lia |].
  unfold Time_of_seconds.
  replace (s + 0 + 0) with s by lia. replace (s - 0 - 0) with s by lia.
  rewrite to_long_id by assumption.
  split; do 2 f_equal; lia.
Qed.

Lemma plus_minus_zero_witness :
  Time_plus (Time_of_seconds 5 250000) Time_default = Time_of_seconds 5 250000 /\
  Time_minus (Time_of_seconds 5 250000) Time_default = Time_of_seconds 5 250000.
Proof. apply (plus_minus_zero (Time_of_seconds 5 250000)); concrete. Defined.

(** Adding zero to a [Time] whose microseconds hold one second too much
    carries that second: the sum is the normalized form of the operand and
    compares [==] to it. *)
Theorem plus_zero_carries_once (a : Time) :
  is_long (seconds a + 1) -> MAX_USECS <= micros a < 2 * MAX_USECS ->
  Time_plus a Time_default = Time_of_seconds (seconds a + 1) (micros a - MAX_USECS) /\
  normalized (Time_plus a Time_default) /\
  Time_eq (Time_plus a Time_default) a = true.
Proof.
  unfold seconds, micros, MAX_USECS. intros Hs Hu.
  assert (Heq : Time_plus a Time_default =
                Time_of_seconds (tv_sec (Time_t a) + 1) (tv_usec (Time_t a) - 1000000)).
  { unfold Time_plus, Time_add_assign, timeradd, ladd, lsub.
    destruct a as [[s u]].
    cbn [Time_copy Time_default set_sec set_usec Time_t tv_sec tv_usec] in *.
    rewrite Z.add_0_r, (to_long_id u) by (unfold is_long; lia).
    destruct (1000000 <=? u) eqn:Hc; [| apply Z.leb_gt in Hc; lia].
    cbn [tv_sec tv_usec]. rewrite Z.add_0_r, to_long_add_l.
    rewrite (to_long_id (s + 1)) by assumption.
    rewrite to_long_id by (unfold is_long; lia).
    reflexivity. }
  rewrite Heq. split; [reflexivity |]. split.
  - unfold normalized, MAX_USECS. cbn. lia.
  - unfold Time_eq. rewrite !in_micros_wrap.
    unfold total_micros, seconds, micros. cbn [Time_of_seconds Time_t tv_sec tv_usec].
    apply Z.eqb_eq. f_equal. lia.
Qed.

Lemma plus_zero_carries_once_witness :
  Time_plus (Time_of_seconds 0 1000000) Time_default = Time_of_seconds 1 0 /\
  normalized (Time_plus (Time_of_seconds 0 1000000) Time_default) /\
  Time_eq (Time_plus (Time_of_seconds 0 1000000) Time_default)
          (Time_of_seconds 0 1000000) = true.
Proof. apply (plus_zero_carries_once (Time_of_seconds 0 1000000)); concrete. Defined.

(** [+] is commutative, whatever the operands hold. *)
Theorem plus_comm (a b : Time) : Time_plus a b = Time_plus b a.
Proof.
  unfold Time_plus, Time_add_assign, timeradd, ladd, set_sec, set_usec.
  cbn [Time_copy Time_t tv_sec tv_usec].
  rewrite (Z.add_comm (tv_sec (Time_t a))), (Z.add_comm (tv_usec (Time_t a))).
  reflexivity.
Qed.

(** [+] is associative on normalized operands, also when the seconds wrap. *)
Theorem plus_assoc (a b c : Time) :
  normalized a -> normalized b -> normalized c ->
  Time_plus (Time_plus a b) c = Time_plus a (Time_plus b c).
Proof.
  intros Ha Hb Hc.
  pose proof (Time_plus_normalized a b Ha Hb) as Hab.
  pose proof (Time_plus_normalized b c Hb Hc) as Hbc.
  rewrite (Time_plus_fields (Time_plus a b) c), (Time_plus_fields a (Time_plus b c))
    by assumption.
  rewrite (Time_plus_fields a b), (Time_plus_fields b c) in * by assumption.
  revert Ha Hb Hc Hab Hbc.
  unfold normalized, carry, seconds, micros, MAX_USECS, Time_of_seconds.
  destruct a as [[sa ua]], b as [[sb ub]], c as [[sc uc]].
  cbn [Time_t tv_sec tv_usec]. intros Ha Hb Hc Hab Hbc.
  rewrite to_long_add_l3, to_long_add_m3.
  destruct (1000000 <=? ua + ub) eqn:H1;
    [apply Z.leb_le in H1 | apply Z.leb_gt in H1];
  destruct (1000000 <=? ub + uc) eqn:H2;
    [apply Z.leb_le in H2 | apply Z.leb_gt in H2 | apply Z.leb_le in H2 | apply Z.leb_gt in H2];
  match goal with
  | |- context [?x <=? ?y] => destruct (Z.leb_spec x y)
  end;
  match goal with
  | |- context [?x <=? ?y] => destruct (Z.leb_spec x y)
  end;
  try lia; do 2 f_equal; try (f_equal; lia); lia.
Qed.

Lemma plus_assoc_witness :
  let a := Time_of_seconds 1 700000 in
  let b := Time_of_seconds 2 600000 in
  let c := Time_of_seconds 3 900000 in
  Time_plus (Time_plus a b) c = Time_plus a (Time_plus b c).
Proof.
  apply (plus_assoc (Time_of_seconds 1 700000) (Time_of_seconds 2 600000)
                    (Time_of_seconds 3 900000)); concrete.
Defined.

(** [a - a] is the zero [Time], whatever [a] holds. *)
Theorem minus_self (a : Time) : Time_minus a a = Time_default.
Proof.
  unfold Time_minus, Time_sub_assign, timersub, lsub, set_sec, set_usec.
  cbn [Time_copy Time_t tv_sec tv_usec].
  rewrite !Z.sub_diag. reflexivity.
Qed.

(** For normalized [a] and [b], [(a - b) + b] is [a] field by field. *)
Theorem sub_then_add_cancels (a b : Time) :
  well_typed a -> normalized a -> normalized b ->
  Time_plus (Time_minus a b) b = a.
Proof.
  intros [Hsa _] Ha Hb.
  pose proof (Time_minus_normalized a b Ha Hb) as Hn.
  rewrite (Time_plus_fields (Time_minus a b) b) by assumption.
  rewrite (Time_minus_fields a b) in * by assumption.
  revert Ha Hb Hn Hsa.
  unfold normalized, borrow, carry, seconds, micros, MAX_USECS, Time_of_seconds.
  destruct a as [[sa ua]], b as [[sb ub]]. cbn [Time_t tv_sec tv_usec].
  intros Ha Hb Hn Hsa.
  rewrite to_long_add_l3.
  destruct (ua <? ub) eqn:Hw; [apply Z.ltb_lt in Hw | apply Z.ltb_ge in Hw];
    match goal with
    | |- context [?x <=? ?y] => destruct (Z.leb_spec x y)
    end; try lia.
  - replace (sa - sb - 1 + sb + 1) with sa by lia.
    rewrite to_long_id by assumption. do 2 f_equal; lia.
  - replace (sa - sb - 0 + sb + 0) with sa by lia.
    rewrite to_long_id by assumption. do 2 f_equal; lia.
Qed.

Lemma sub_then_add_cancels_witness :
  Time_plus (Time_minus (Time_of_seconds 1 700000) (Time_of_seconds 2 900000))
            (Time_of_seconds 2 900000) = Time_of_seconds 1 700000.
Proof.
  apply (sub_then_add_cancels (Time_of_seconds 1 700000) (Time_of_seconds 2 900000));
    concrete.
Defined.

End Algebra.

(** ** Arithmetic and the comparison scalar *)

Section Scalar.

Lemma to_long_sub_r x y : to_long (x - to_long y) = to_long (x - y).
Proof.
  apply to_long_congr.
  rewrite Zminus_mod, to_long_mod, <- Zminus_mod. reflexivity.
Qed.

Lemma in_micros_plus_total (a b : Time) :
  normalized a -> normalized b ->
  in_micros (Time_plus a b) = to_long (total_micros a + total_micros b).
Proof.
  intros Ha Hb. rewrite in_micros_wrap, Time_plus_fields by assumption.
  unfold total_micros, seconds, micros, MAX_USECS.
  cbn [Time_of_seconds Time_t tv_sec tv_usec].
  rewrite to_long_mul_add. f_equal. lia.
Qed.

Lemma in_micros_minus_total (a b : Time) :
  normalized a -> normalized b ->
  in_micros (Time_minus a b) = to_long (total_micros a - total_micros b).
Proof.
  intros Ha Hb. rewrite in_micros_wrap, Time_minus_fields by assumption.
  unfold total_micros, seconds, micros, MAX_USECS.
  cbn [Time_of_seconds Time_t tv_sec tv_usec].
  rewrite to_long_mul_add. f_equal. lia.
Qed.

(** On normalized operands [+] adds and [-] subtracts the total
    microseconds: [in_micros] of the result is the 64-bit sum (difference)
    of [in_micros] of the operands. *)
Theorem in_micros_plus_minus (a b : Time) :
  normalized a -> normalized b ->
  in_micros (Time_plus a b) = to_long (in_micros a + in_micros b) /\
  in_micros (Time_minus a b) = to_long (in_micros a - in_micros b).
Proof.
  intros Ha Hb.
  rewrite in_micros_plus_total, in_micros_minus_total by assumption.
  rewrite !in_micros_wrap.
  rewrite to_long_add_l, to_long_add_r, to_long_sub_l, to_long_sub_r.
  split; reflexivity.
Qed.

Lemma in_micros_plus_minus_witness :
  let a := Time_of_seconds 1 700000 in
  let b := Time_of_seconds 2 600000 in
  in_micros (Time_plus a b) = 4300000 /\
  in_micros (Time_minus a b) = -900000.
Proof.
  apply (in_micros_plus_minus (Time_of_seconds 1 700000) (Time_of_seconds 2 600000));
    concrete.
Defined.

Lemma fits_long_is_long z : fits_long z = true -> is_long z.
Proof.
  unfold fits_long, is_long. intros H.
  apply andb_true_iff in H as [H1 H2].
  apply Z.leb_le in H1. apply Z.ltb_lt in H2. split; assumption.
Qed.

(** For normalized operands whose totals fit a [long], [a < b] holds
    exactly when the seconds of [a - b] are negative: a negative difference
    is stored as negative seconds with microseconds in range. *)
Theorem lt_iff_minus_negative (a b : Time) :
  normalized a -> normalized b ->
  fits_long (total_micros a) = true -> fits_long (total_micros b) = true ->
  Time_lt a b = (seconds (Time_minus a b) <? 0) /\
  normalized (Time_minus a b).
Proof.
  intros Ha Hb Fa Fb.
  split; [| apply Time_minus_normalized; assumption].
  unfold Time_lt. rewrite !in_micros_exact, Time_minus_fields by assumption.
  apply fits_long_is_long in Fa, Fb.
  revert Ha Hb Fa Fb.
  unfold normalized, is_long, borrow, total_micros, seconds, micros, MAX_USECS.
  destruct a as [[sa ua]], b as [[sb ub]].
  cbn [Time_of_seconds Time_t tv_sec tv_usec]. intros Ha Hb Fa Fb.
  assert (Hw : 0 <= (if ua <? ub then 1 else 0) <= 1) by (destruct (ua <? ub); lia).
  rewrite to_long_id by (unfold is_long; lia).
  destruct (Z.ltb_spec ua ub);
    destruct (Z.ltb_spec (sa * 1000000 + ua) (sb * 1000000 + ub));
    match goal with
    | |- _ = (?x <? 0) => destruct (Z.ltb_spec x 0)
    end; try reflexivity; lia.
Qed.

Lemma lt_iff_minus_negative_witness :
  let a := Time_of_seconds 1 700000 in
  let b := Time_of_seconds 2 600000 in
  Time_lt a b = (seconds (Time_minus a b) <? 0) /\
  normalized (Time_minus a b).
Proof.
  apply (lt_iff_minus_negative (Time_of_seconds 1 700000) (Time_of_seconds 2 600000));
    first [concrete | vm_compute; reflexivity].
Defined.

(** For normalized operands whose totals fit a [long], [==] holds exactly
    when the two values have the same fields. *)
Theorem eq_iff_same_fields (a b : Time) :
  normalized a -> normalized b ->
  fits_long (total_micros a) = true -> fits_long (total_micros b) = true ->
  Time_eq a b = true <-> a = b.
Proof.
  intros Ha Hb Fa Fb. unfold Time_eq.
  rewrite !in_micros_exact, Z.eqb_eq by assumption.
  split; [| intros ->; reflexivity].
  revert Ha Hb. unfold normalized, total_micros, seconds, micros, MAX_USECS.
  destruct a as [[sa ua]], b as [[sb ub]]. cbn [Time_t tv_sec tv_usec].
  intros Ha Hb H.
  assert (sa = sb) by lia. assert (ua = ub) by lia. subst. reflexivity.
Qed.

Lemma eq_iff_same_fields_witness :
  Time_eq (Time_of_seconds 1 700000) (Time_of_seconds 1 700000) = true <->
  Time_of_seconds 1 700000 = Time_of_seconds 1 700000.
Proof.
  apply (eq_iff_same_fields (Time_of_seconds 1 700000) (Time_of_seconds 1 700000));
    first [concrete | vm_compute; reflexivity].
Defined.

(** Outside that domain [==] is coarser than equality of the fields: a value
    with one second too much in its microseconds equals its normalized
    form, and because the scalar is reduced modulo [2 ^ 64] two values whose
    seconds differ by a multiple of [2 ^ 58] compare equal. *)
Theorem eq_coarser_than_fields (s u k : Z) :
  Time_eq (Time_of_seconds s (u + MAX_USECS)) (Time_of_seconds (s + 1) u) = true /\
  Time_eq (Time_of_seconds (s + k * 2 ^ 58) u) (Time_of_seconds s u) = true.
Proof.
  unfold Time_eq. rewrite !in_micros_wrap, !Z.eqb_eq.
  unfold total_micros, seconds, micros, MAX_USECS.
  cbn [Time_of_seconds Time_t tv_sec tv_usec].
  split.
  - f_equal. lia.
  - apply to_long_congr.
    replace ((s + k * 2 ^ 58) * 1000000 + u)
      with (s * 1000000 + u + (k * 15625) * 2 ^ 64) by lia.
    apply Z.mod_add. lia.
Qed.

(** Adding the same normalized [c] to both sides keeps the order, as long
    as the totals involved fit a [long]. *)
Theorem plus_preserves_lt (a b c : Time) :
  normalized a -> normalized b -> normalized c ->
  fits_long (total_micros a) = true -> fits_long (total_micros b) = true ->
  fits_long (total_micros a + total_micros c) = true ->
  fits_long (total_micros b + total_micros c) = true ->
  Time_lt (Time_plus a c) (Time_plus b c) = Time_lt a b.
Proof.
  intros Ha Hb Hc Fa Fb Fac Fbc. unfold Time_lt.
  rewrite !in_micros_plus_total by assumption.
  rewrite !in_micros_exact by assumption.
  rewrite !to_long_id by (apply fits_long_is_long; assumption).
  destruct (Z.ltb_spec (total_micros a + total_micros c) (total_micros b + total_micros c));
    destruct (Z.ltb_spec (total_micros a) (total_micros b)); try reflexivity; lia.
Qed.

Lemma plus_preserves_lt_witness :
  let a := Time_of_seconds 1 700000 in
  let b := Time_of_seconds 2 600000 in
  let c := Time_of_seconds 3 900000 in
  Time_lt (Time_plus a c) (Time_plus b c) = Time_lt a b.
Proof.
  apply (plus_preserves_lt (Time_of_seconds 1 700000) (Time_of_seconds 2 600000)
                           (Time_of_seconds 3 900000));
    first [concrete | vm_compute; reflexivity].
Defined.

End Scalar.

(** ** Scalar division and multiplication on the total *)

Section Scaling.

(** For a normalized [t] with non-negative seconds and a positive [int]
    denominator, [t / d] is the floor of the total microseconds of [t]
    divided by [d], stored normalized: the two branches of [operator /=]
    compute the same quotient. *)
Theorem div_floors_total (t : Time) (d : Z) :
  0 <= seconds t < 2 ^ 63 -> normalized t -> 0 < d < 2 ^ 31 ->
  total_micros (Time_div t d) = total_micros t / d /\
  normalized (Time_div t d) /\
  0 <= seconds (Time_div t d).
Proof.
  intros Hs Hn Hd.
  rewrite Time_div_is_div_assign, Time_div_assign_spec by assumption.
  revert Hs Hn. unfold spec_div, normalized, total_micros, seconds, micros, MAX_USECS.
  destruct t as [[s u]]. cbn [Time_t tv_sec tv_usec]. intros Hs Hn.
  pose proof (Z.div_mod s d ltac:(lia)) as Hdm.
  pose proof (Z.mod_pos_bound s d ltac:(lia)) as Hr.
  destruct (Z.leb_spec d s); cbn [Time_of_seconds Time_t tv_sec tv_usec].
  - set (q := s / d) in *. set (r := s mod d) in *.
    assert (Hq : 0 <= q) by (apply Z.div_pos; lia).
    assert (Hx : 0 <= (r * 1000000 + u) / d < 1000000).
    { split; [apply Z.div_pos; lia | apply Z.div_lt_upper_bound; nia]. }
    repeat split; try lia.
    replace (s * 1000000 + u) with (q * 1000000 * d + (r * 1000000 + u)) by nia.
    rewrite Z.div_add_l by lia. reflexivity.
  - assert (Hx : 0 <= (s * 1000000 + u) / d < 1000000).
    { split; [apply Z.div_pos; lia | apply Z.div_lt_upper_bound; nia]. }
    repeat split; lia.
Qed.

Lemma div_floors_total_witness :
  total_micros (Time_div (Time_of_seconds 10 3) 4) = total_micros (Time_of_seconds 10 3) / 4 /\
  normalized (Time_div (Time_of_seconds 10 3) 4) /\
  0 <= seconds (Time_div (Time_of_seconds 10 3) 4).
Proof. apply (div_floors_total (Time_of_seconds 10 3) 4); concrete. Defined.

(** Dividing a normalized [t] with non-negative seconds by [1] gives [t]. *)
Theorem div_by_one (t : Time) :
  0 <= seconds t < 2 ^ 63 -> normalized t -> Time_div t 1 = t.
Proof.
  intros Hs Hn.
  rewrite Time_div_is_div_assign, Time_div_assign_spec by (assumption || lia).
  revert Hs Hn. unfold spec_div, normalized, seconds, micros, MAX_USECS.
  destruct t as [[s u]]. cbn [Time_t tv_sec tv_usec]. intros Hs Hn.
  unfold Time_of_seconds.
  destruct (Z.leb_spec 1 s).
  - rewrite Z.mod_1_r, !Z.div_1_r. reflexivity.
  - assert (s = 0) by lia. subst s. rewrite Z.div_1_r. reflexivity.
Qed.

Lemma div_by_one_witness :
  Time_div (Time_of_seconds 10 3) 1 = Time_of_seconds 10 3.
Proof. apply (div_by_one (Time_of_seconds 10 3)); concrete. Defined.

(** [operator /] takes an [unsigned int] but hands it to [operator /=] as
    an [int]: a denominator [d] of [2 ^ 31] or more arrives as the negative
    [d - 2 ^ 32].  For a normalized [t] with non-negative seconds the result
    then has no microseconds and the seconds [- (seconds / (2 ^ 32 - d))]. *)
Theorem div_large_unsigned_denominator (t : Time) (d : Z) :
  0 <= seconds t < 2 ^ 63 -> normalized t -> 2 ^ 31 <= d < 2 ^ 32 ->
  Time_div t d = Time_of_seconds (- (seconds t / (2 ^ 32 - d))) 0.
Proof.
  unfold normalized, seconds, MAX_USECS. intros Hs Hn Hd.
  unfold Time_div. rewrite Time_copy_id.
  assert (Hi : to_int d = - (2 ^ 32 - d)).
  { unfold to_int.
    replace (d + 2 ^ 31) with (d - 2 ^ 31 + 1 * 2 ^ 32) by lia.
    rewrite Z.mod_add, Z.mod_small by lia. lia. }
  rewrite Hi. set (e := 2 ^ 32 - d) in *.
  assert (He : 0 < e <= 2 ^ 31) by (unfold e; lia).
  unfold Time_div_assign, ldiv, lrem.
  destruct (Z.geb_spec (tv_sec (Time_t t)) (- e)); [| lia].
  rewrite Z.quot_opp_r, Z.rem_opp_r by lia.
  rewrite Z.quot_div_nonneg, Z.rem_mod_nonneg by lia.
  pose proof (Z.mod_pos_bound (tv_sec (Time_t t)) e ltac:(lia)) as Hr.
  assert (Hq : 0 <= tv_sec (Time_t t) / e <= tv_sec (Time_t t)).
  { split; [apply Z.div_pos; lia | apply Z.div_le_upper_bound; nia]. }
  rewrite (to_long_id (tv_sec (Time_t t) mod e)) by (unfold is_long; lia).
  rewrite (to_long_id (- (tv_sec (Time_t t) / e))) by (unfold is_long; lia).
  rewrite uadd_umul, (to_ulong_id (tv_sec (Time_t t) mod e)) by (unfold is_ulong; lia).
  unfold udiv, MAX_USECS.
  set (x := tv_sec (Time_t t) mod e * 1000000 + tv_usec (Time_t t)).
  assert (Hx : 0 <= x < 2 ^ 31 * 1000000 + 1000000) by (unfold x; lia).
  rewrite !(to_ulong_id x) by (unfold is_ulong; lia).
  assert (Hu : to_ulong (- e) = 2 ^ 64 - e).
  { unfold to_ulong.
    replace (- e) with (2 ^ 64 - e + (-1) * 2 ^ 64) by lia.
    rewrite Z.mod_add, Z.mod_small by lia. reflexivity. }
  rewrite Hu, (Z.div_small x) by lia.
  reflexivity.
Qed.

Lemma div_large_unsigned_denominator_witness :
  Time_div (Time_of_seconds 5000000000 999999) 4000000000 = Time_of_seconds (-16) 0.
Proof.
  apply (div_large_unsigned_denominator (Time_of_seconds 5000000000 999999) 4000000000);
    concrete.
Defined.

(** For a normalized [t] and a positive [int] multiplier [m], [t * m]
    holds [micros * m] microseconds in total, whatever the seconds of [t]
    were, and is normalized unless that product is exactly [1000000]. *)
Theorem mul_scales_micros_only (t : Time) (m : Z) :
  normalized t -> 0 < m < 2 ^ 31 ->
  total_micros (Time_mul t m) = micros t * m /\
  0 <= seconds (Time_mul t m) /\
  (normalized (Time_mul t m) <-> micros t * m <> MAX_USECS).
Proof.
  intros Hn Hm.
  assert (Hp : 0 <= micros t * m < 1000000 * 2 ^ 31).
  { revert Hn. unfold normalized, micros, MAX_USECS. intros Hn. nia. }
  rewrite Time_mul_fields, Time_mul_assign_fields by assumption.
  cbv zeta. set (p := micros t * m) in *.
  unfold normalized, total_micros, seconds, micros, MAX_USECS.
  destruct (Z.gtb_spec p 1000000); cbn [Time_of_seconds Time_t tv_sec tv_usec].
  - pose proof (Z.div_mod p 1000000 ltac:(lia)).
    pose proof (Z.mod_pos_bound p 1000000 ltac:(lia)).
    assert (0 <= p / 1000000) by (apply Z.div_pos; lia).
    repeat split; lia.
  - repeat split; lia.
Qed.

Lemma mul_scales_micros_only_witness :
  total_micros (Time_mul (Time_of_seconds 7 600000) 3) = 600000 * 3 /\
  0 <= seconds (Time_mul (Time_of_seconds 7 600000) 3) /\
  (normalized (Time_mul (Time_of_seconds 7 600000) 3) <-> 600000 * 3 <> MAX_USECS).
Proof. apply (mul_scales_micros_only (Time_of_seconds 7 600000) 3); concrete. Defined.

End Scaling.

(** ** The clock-setting mutators *)

Section Clock.

Lemma to_long_sub_l3 x y z : to_long (to_long x - y - z) = to_long (x - y - z).
Proof.
  replace (to_long x - y - z) with (to_long x - (y + z)) by lia.
  rewrite to_long_sub_l. f_equal. lia.
Qed.

(** With a normalized clock reading, [future(n)] is [now() + Time(n)] and
    [past(n)] is [now() - Time(n)] for the same reading; a negative argument
    of [future] is [past] of its opposite, and the value set by
    [future(n)] less the one set by [now()] is exactly [n] seconds. *)
Theorem future_past_offsets (this : Time) (clock : timeval) (n : Z) :
  0 <= tv_usec clock < MAX_USECS -> is_int n ->
  future this clock n = Time_plus (now this clock) (Time_of_seconds n 0) /\
  past this clock n = Time_minus (now this clock) (Time_of_seconds n 0) /\
  future this clock (- n) = past this clock n /\
  Time_minus (future this clock n) (now this clock) = Time_of_seconds n 0.
Proof.
  intros Hu Hn.
  assert (Hnow : normalized (now this clock)) by exact Hu.
  assert (Hz : normalized (Time_of_seconds n 0)).
  { unfold normalized, MAX_USECS. cbn. lia. }
  assert (Hf : normalized (future this clock n)) by exact Hu.
  rewrite (Time_minus_fields (future this clock n)) by assumption.
  rewrite Time_plus_fields, Time_minus_fields by assumption.
  unfold future, past, now, ladd, lsub, set_sec, carry, borrow, seconds, micros,
    Time_of_seconds, MAX_USECS in *.
  destruct clock as [s u]. cbn [Time_t tv_sec tv_usec] in *.
  destruct (Z.leb_spec 1000000 (u + 0)); [lia |].
  destruct (Z.ltb_spec u 0); [lia |].
  destruct (Z.ltb_spec u u); [lia |].
  rewrite to_long_sub_l3.
  replace (s + n - s - 0) with n by lia.
  rewrite (to_long_id n) by (unfold is_long, is_int in *; lia).
  repeat split; do 2 f_equal; try (f_equal; lia); lia.
Qed.

Lemma future_past_offsets_witness :
  let clock := mk_timeval 1700000000 500 in
  future Time_default clock 60 =
    Time_plus (now Time_default clock) (Time_of_seconds 60 0) /\
  past Time_default clock 60 =
    Time_minus (now Time_default clock) (Time_of_seconds 60 0) /\
  future Time_default clock (- 60) = past Time_default clock 60 /\
  Time_minus (future Time_default clock 60) (now Time_default clock) =
    Time_of_seconds 60 0.
Proof.
  apply (future_past_offsets Time_default (mk_timeval 1700000000 500) 60);
    cbv [is_long is_int MAX_USECS tv_sec tv_usec]; lia.
Defined.

End Clock.

(** ** The text of a rendering *)

Section Text.

Lemma string_app_cons (c : ascii) (s1 s2 : string) :
  String c s1 +:+ s2 = String c (s1 +:+ s2).
Proof. reflexivity. Qed.

Lemma string_app_assoc (s1 s2 s3 : string) : (s1 +:+ s2) +:+ s3 = s1 +:+ (s2 +:+ s3).
Proof.
  induction s1 as [| c s1 IH]; [reflexivity |].
  rewrite !string_app_cons, IH. reflexivity.
Qed.

Lemma string_app_nil_r (s : string) : s +:+ "" = s.
Proof.
  induction s as [| c s IH]; [reflexivity |].
  rewrite string_app_cons, IH. reflexivity.
Qed.

Lemma string_length_app (s1 s2 : string) :
  String.length (s1 +:+ s2) = (String.length s1 + String.length s2)%nat.
Proof.
  induction s1 as [| c s1 IH]; [reflexivity |].
  rewrite string_app_cons. cbn [String.length]. rewrite IH. reflexivity.
Qed.

Lemma length_fill_string (n : nat) (c : ascii) : String.length (fill_string n c) = n.
Proof. induction n as [| n IH]; simpl; [reflexivity | f_equal; exact IH]. Qed.

(** A number below [10 ^ k] has at most [k] decimal digits. *)
Lemma pretty_N_go_length (k : nat) : forall (x : N) (s : string),
  (x < 10 ^ N.of_nat k)%N ->
  (String.length (pretty_N_go x s) <= k + String.length s)%nat.
Proof.
  induction k as [| k IH]; intros x s Hx.
  - assert (x = 0%N) by (cbn in Hx; lia). subst x.
    rewrite pretty_N_go_0. lia.
  - destruct (decide (x = 0%N)) as [-> | Hne].
    + rewrite pretty_N_go_0. lia.
    + rewrite pretty_N_go_step by lia.
      assert (Hq : (x `div` 10 < 10 ^ N.of_nat k)%N).
      { apply N.Div0.div_lt_upper_bound.
        rewrite Nat2N.inj_succ, N.pow_succ_r' in Hx. exact Hx. }
      specialize (IH _ (String (pretty_N_char (x `mod` 10)) s) Hq).
      cbn [String.length] in IH. lia.
Qed.

Lemma pretty_N_length (k : nat) (x : N) :
  (0 < k)%nat -> (x < 10 ^ N.of_nat k)%N -> (String.length (pretty x) <= k)%nat.
Proof.
  intros Hk Hx. unfold pretty, pretty_N.
  destruct (decide (x = 0%N)).
  - cbn. lia.
  - pose proof (pretty_N_go_length k x "" Hx) as H. cbn [String.length] in H. lia.
Qed.

Lemma zero_padded_length (k : nat) (n : Z) :
  (0 < k)%nat -> 0 <= n < 10 ^ Z.of_nat k -> String.length (zero_padded k n) = k.
Proof.
  intros Hk Hn. unfold zero_padded.
  rewrite string_length_app, length_fill_string.
  assert (String.length (pretty (Z.to_N n)) <= k)%nat; [| lia].
  apply pretty_N_length; [exact Hk |].
  assert (H10 : (10 ^ N.of_nat k)%N = Z.to_N (10 ^ Z.of_nat k)).
  { rewrite Z2N.inj_pow, <- nat_N_Z, N2Z.id by lia. reflexivity. }
  rewrite H10. apply Z2N.inj_lt; lia.
Qed.

Lemma string_app_nil_l (s : string) : "" +:+ s = s.
Proof. reflexivity. Qed.

(** A field written with no width set is the sign and the body, whatever
    the fill character and the adjustment. *)
Lemma write_field_no_width (sign body : string) (os : ostream) :
  os_width os = 0%nat ->
  write_field sign body os =
    mk_ostream (os_text os +:+ sign +:+ body) (os_fill os) 0 (os_adjust os).
Proof.
  intros Hw. unfold write_field, pad. rewrite Hw.
  cbn [Nat.sub fill_string].
  destruct (os_adjust os);
    rewrite ?string_app_nil_l, ?string_app_nil_r; reflexivity.
Qed.

(** A field written right-adjusted is filled on the left up to the width. *)
Lemma write_field_right (body : string) (os : ostream) :
  os_adjust os = adjust_right ->
  write_field "" body os =
    mk_ostream (os_text os +:+ fill_string (os_width os - String.length body) (os_fill os)
                  +:+ body)
               (os_fill os) 0 adjust_right.
Proof.
  intros Ha. unfold write_field, pad. rewrite Ha.
  cbn [String.length Nat.add]. rewrite string_app_nil_l. reflexivity.
Qed.

(** The sign and the digits that [put_long] writes make up the decimal
    numeral of the number. *)
Lemma sign_digits_pretty (n : Z) :
  (if n <? 0 then "-" +:+ pretty (Z.to_N (- n)) else pretty (Z.to_N n)) = pretty n.
Proof. destruct n; reflexivity. Qed.

Lemma put_long_no_width (n : Z) (os : ostream) :
  is_long n -> os_width os = 0%nat ->
  put_long n os = mk_ostream (os_text os +:+ pretty n) (os_fill os) 0 (os_adjust os).
Proof.
  intros Hn Hw. unfold put_long. rewrite to_long_id by assumption.
  rewrite <- sign_digits_pretty.
  destruct (n <? 0); rewrite write_field_no_width by assumption;
    rewrite ?string_app_nil_l; reflexivity.
Qed.

Lemma put_long_right (n : Z) (os : ostream) :
  0 <= n < 2 ^ 63 -> os_adjust os = adjust_right -> os_fill os = "0"%char ->
  put_long n os =
    mk_ostream (os_text os +:+ zero_padded (os_width os) n) "0" 0 adjust_right.
Proof.
  intros Hn Ha Hf. unfold put_long. rewrite to_long_id by (unfold is_long; lia).
  destruct (Z.ltb_spec n 0); [lia |].
  rewrite write_field_right, Hf by assumption. reflexivity.
Qed.

Lemma put_ulong_no_width (n : Z) (os : ostream) :
  is_ulong n -> os_width os = 0%nat ->
  put_ulong n os =
    mk_ostream (os_text os +:+ pretty (Z.to_N n)) (os_fill os) 0 (os_adjust os).
Proof.
  intros Hn Hw. unfold put_ulong. rewrite to_ulong_id by assumption.
  rewrite write_field_no_width by assumption.
  rewrite string_app_nil_l. reflexivity.
Qed.

Lemma put_ulong_right (n : Z) (os : ostream) :
  is_ulong n -> os_adjust os = adjust_right -> os_fill os = "0"%char ->
  put_ulong n os =
    mk_ostream (os_text os +:+ zero_padded (os_width os) n) "0" 0 adjust_right.
Proof.
  intros Hn Ha Hf. unfold put_ulong. rewrite to_ulong_id by assumption.
  rewrite write_field_right, Hf by assumption. reflexivity.
Qed.

Lemma put_char_no_width (c : ascii) (os : ostream) :
  os_width os = 0%nat ->
  put_char c os =
    mk_ostream (os_text os +:+ String c "") (os_fill os) 0 (os_adjust os).
Proof.
  intros Hw. unfold put_char. rewrite write_field_no_width by assumption.
  rewrite string_app_nil_l. reflexivity.
Qed.

Lemma Time_print_on (t : Time) (os : ostream) :
  well_typed t -> normalized t -> os_width os = 0%nat ->
  Time_print t os =
    mk_ostream (os_text os +:+ pretty (seconds t) +:+ "."
                  +:+ zero_padded 6 (micros t) +:+ "s")
               " " 0 adjust_left.
Proof.
  intros [Hs _] Hn Hw.
  unfold Time_print, seconds, micros.
  unfold setw, right, setfill, left.
  rewrite (put_long_no_width (tv_sec (Time_t t))) by assumption.
  rewrite (put_char_no_width ".") by reflexivity.
  cbn [os_text os_fill os_width os_adjust].
  rewrite put_long_right;
    [| revert Hn; unfold normalized, MAX_USECS; lia | reflexivity | reflexivity].
  cbn [os_text os_fill os_width os_adjust].
  rewrite put_char_no_width by reflexivity.
  cbn [os_text os_fill os_width os_adjust].
  rewrite !string_app_assoc. reflexivity.
Qed.

Lemma render_Time_text (t : Time) :
  well_typed t -> normalized t ->
  render_Time t = pretty (seconds t) +:+ "." +:+ zero_padded 6 (micros t) +:+ "s".
Proof.
  intros Ht Hn. unfold render_Time.
  rewrite Time_print_on by (assumption || reflexivity).
  cbn [os_text ostream_init]. rewrite string_app_nil_l. reflexivity.
Qed.

(** A valid [Time] is written as its seconds in decimal, a dot, the
    microseconds as exactly six digits and the letter [s]. *)
Theorem Time_render_format (t : Time) :
  well_typed t -> normalized t ->
  render_Time t = pretty (seconds t) +:+ "." +:+ zero_padded 6 (micros t) +:+ "s" /\
  String.length (zero_padded 6 (micros t)) = 6%nat.
Proof.
  intros Ht Hn. split.
  - apply render_Time_text; assumption.
  - apply zero_padded_length; [lia |].
    revert Hn. unfold normalized, micros, MAX_USECS. cbn. lia.
Qed.

Lemma Time_render_format_witness :
  render_Time (Time_of_seconds 1700000000 500) =
    pretty 1700000000 +:+ "." +:+ zero_padded 6 500 +:+ "s" /\
  String.length (zero_padded 6 500) = 6%nat.
Proof. apply (Time_render_format (Time_of_seconds 1700000000 500)); concrete. Defined.

Lemma to_ulong_cases (z : Z) :
  is_long z -> (0 <= z /\ to_ulong z = z) \/ (z < 0 /\ to_ulong z = z + 2 ^ 64).
Proof.
  unfold is_long, to_ulong. intros Hz.
  destruct (Z.le_gt_cases 0 z) as [Hp | Hneg]; [left | right]; split; try assumption.
  - apply Z.mod_small. lia.
  - replace z with (z + 2 ^ 64 + (-1) * 2 ^ 64) at 1 by lia.
    rewrite Z.mod_add, Z.mod_small by lia. reflexivity.
Qed.

Lemma Duration_print_on (d : Duration) (os : ostream) :
  is_long (tv_sec (Duration_t d)) ->
  0 <= tv_usec (Duration_t d) < MAX_USECS ->
  os_width os = 0%nat ->
  Duration_print d os =
    mk_ostream (os_text os
                  +:+ duration_text (to_ulong (tv_sec (Duration_t d))) (Duration_su d)
                        (tv_usec (Duration_t d)))
               " " 0 adjust_right.
Proof.
  unfold MAX_USECS. intros Hs Hu Hw.
  unfold Duration_print, duration_text. cbv zeta.
  change (umul 60 60) with 3600. change (umul 3600 24) with 86400.
  set (s := tv_sec (Duration_t d)) in *.
  set (u := tv_usec (Duration_t d)) in *.
  pose proof (to_ulong_is_ulong s) as Hv. unfold is_ulong in Hv.
  pose proof (to_ulong_cases s Hs) as Hvs.
  set (v := to_ulong s) in *.
  assert (Hday : udiv s 86400 = v / 86400) by reflexivity.
  assert (Hrem : to_long (umod s 86400) = v mod 86400).
  { unfold umod. fold v. change (to_ulong 86400) with 86400.
    pose proof (Z.mod_pos_bound v 86400 ltac:(lia)).
    apply to_long_id. unfold is_long. lia. }
  rewrite Hday, Hrem.
  assert (Hq : 0 <= v / 86400 <= v).
  { split; [apply Z.div_pos; lia | apply Z.div_le_upper_bound; lia]. }
  set (r := v mod 86400).
  assert (Hr : 0 <= r < 86400) by (apply Z.mod_pos_bound; lia).
  assert (Htail : forall os1 : ostream, os_width os1 = 0%nat ->
    (let os2 := put_char ":" (put_ulong (udiv r 3600) (setfill "0" (right os1))) in
     let r1 := to_long (umod r 3600) in
     let os3 := put_char ":" (put_ulong (udiv r1 60) (setw 2 os2)) in
     let r2 := to_long (umod r1 60) in
     let os4 := put_long r2 (setw 2 os3) in
     let os5 := if Duration_su d
                then put_long u (setfill "0" (setw 6 (put_char "." os4)))
                else os4 in
     setfill " " os5) =
    mk_ostream (os_text os1 +:+ pretty (Z.to_N (r / 3600)) +:+ ":"
                  +:+ zero_padded 2 (r mod 3600 / 60) +:+ ":"
                  +:+ zero_padded 2 (r mod 3600 mod 60)
                  +:+ (if Duration_su d then "." +:+ zero_padded 6 u else ""))
               " " 0 adjust_right).
  { intros os1 Hw1. cbv zeta.
    assert (Hh : udiv r 3600 = r / 3600).
    { unfold udiv. rewrite (to_ulong_id r) by (unfold is_ulong; lia). reflexivity. }
    assert (Hr1 : to_long (umod r 3600) = r mod 3600).
    { unfold umod. rewrite (to_ulong_id r) by (unfold is_ulong; lia).
      change (to_ulong 3600) with 3600.
      pose proof (Z.mod_pos_bound r 3600 ltac:(lia)).
      apply to_long_id. unfold is_long. lia. }
    rewrite Hh, Hr1.
    set (r1 := r mod 3600).
    assert (Hr1b : 0 <= r1 < 3600) by (apply Z.mod_pos_bound; lia).
    assert (Hm : udiv r1 60 = r1 / 60).
    { unfold udiv. rewrite (to_ulong_id r1) by (unfold is_ulong; lia). reflexivity. }
    assert (Hr2 : to_long (umod r1 60) = r1 mod 60).
    { unfold umod. rewrite (to_ulong_id r1) by (unfold is_ulong; lia).
      change (to_ulong 60) with 60.
      pose proof (Z.mod_pos_bound r1 60 ltac:(lia)).
      apply to_long_id. unfold is_long. lia. }
    rewrite Hm, Hr2.
    assert (0 <= r / 3600 < 24).
    { split; [apply Z.div_pos; lia | apply Z.div_lt_upper_bound; lia]. }
    assert (0 <= r1 / 60 < 60).
    { split; [apply Z.div_pos; lia | apply Z.div_lt_upper_bound; lia]. }
    pose proof (Z.mod_pos_bound r1 60 ltac:(lia)).
    unfold setw, right, setfill.
    rewrite (put_ulong_no_width (r / 3600)) by (assumption || (unfold is_ulong; lia)).
    rewrite (put_char_no_width ":") by reflexivity.
    cbn [os_text os_fill os_width os_adjust].
    rewrite (put_ulong_right (r1 / 60)) by (reflexivity || (unfold is_ulong; lia)).
    rewrite (put_char_no_width ":") by reflexivity.
    cbn [os_text os_fill os_width os_adjust].
    rewrite (put_long_right (r1 mod 60)) by (reflexivity || lia).
    cbn [os_text os_fill os_width os_adjust].
    destruct (Duration_su d).
    - rewrite (put_char_no_width ".") by reflexivity.
      cbn [os_text os_fill os_width os_adjust].
      rewrite (put_long_right u) by (reflexivity || lia).
      cbn [os_text os_fill os_width os_adjust].
      rewrite !string_app_assoc. reflexivity.
    - cbn [os_text os_fill os_width os_adjust].
      rewrite !string_app_assoc, string_app_nil_r. reflexivity. }
  destruct (Z.eqb_spec (v / 86400) 0) as [H0 | H0]; cbn [negb].
  - assert (Hsr : s = r).
    { pose proof (Z.div_mod v 86400 ltac:(lia)).
      unfold is_long in Hs. unfold r. lia. }
    rewrite Hsr. cbv zeta in Htail. rewrite (Htail os Hw).
    rewrite string_app_nil_l. reflexivity.
  - rewrite (put_ulong_no_width (v / 86400)) by (assumption || (unfold is_ulong; lia)).
    unfold put_cstring. rewrite write_field_no_width by reflexivity.
    cbn [os_text os_fill os_width os_adjust].
    cbv zeta in Htail. rewrite Htail by reflexivity.
    cbn [os_text]. rewrite !string_app_assoc, string_app_nil_l. reflexivity.
Qed.

(** A [Duration] with non-negative seconds and microseconds in range is
    written as [Duration_text] says: hours below [24] in their natural
    digits, minutes and seconds in exactly two digits, and with the flag
    set the microseconds in exactly six. *)
Theorem Duration_render_format (d : Duration) :
  0 <= tv_sec (Duration_t d) < 2 ^ 63 ->
  0 <= tv_usec (Duration_t d) < MAX_USECS ->
  let r := tv_sec (Duration_t d) mod 86400 in
  render_Duration d = Duration_text d /\
  0 <= r / 3600 < 24 /\
  String.length (zero_padded 2 (r mod 3600 / 60)) = 2%nat /\
  String.length (zero_padded 2 (r mod 3600 mod 60)) = 2%nat /\
  String.length (zero_padded 6 (tv_usec (Duration_t d))) = 6%nat.
Proof.
  intros Hs Hu r.
  assert (Hr : 0 <= r < 86400) by (apply Z.mod_pos_bound; lia).
  pose proof (Z.mod_pos_bound r 3600 ltac:(lia)) as Hr1.
  pose proof (Z.mod_pos_bound (r mod 3600) 60 ltac:(lia)) as Hr2.
  split; [| split; [| split; [| split]]].
  - unfold render_Duration, Duration_text.
    rewrite Duration_print_on by (assumption || reflexivity || (unfold is_long; lia)).
    rewrite to_ulong_id by (unfold is_ulong; lia).
    reflexivity.
  - split; [apply Z.div_pos; lia | apply Z.div_lt_upper_bound; lia].
  - apply zero_padded_length; [lia |].
    split; [apply Z.div_pos; lia |].
    apply Z.div_lt_upper_bound; [lia |]. cbn. lia.
  - apply zero_padded_length; [lia |]. cbn. lia.
  - apply zero_padded_length; [lia |]. unfold MAX_USECS in Hu. cbn. lia.
Qed.

Lemma Duration_render_format_witness :
  let d := Duration_new (Time_of_seconds 90000 250000) true in
  let r := 90000 mod 86400 in
  render_Duration d = Duration_text d /\
  0 <= r / 3600 < 24 /\
  String.length (zero_padded 2 (r mod 3600 / 60)) = 2%nat /\
  String.length (zero_padded 2 (r mod 3600 mod 60)) = 2%nat /\
  String.length (zero_padded 6 250000) = 6%nat.
Proof.
  apply (Duration_render_format (Duration_new (Time_of_seconds 90000 250000) true));
    cbv [Duration_new Time_of_seconds Duration_t Time_t tv_sec tv_usec MAX_USECS]; lia.
Defined.

(** On a stream with no pending field width, writing a valid [Time] and
    then a [Duration] appends the two renderings one after the other,
    whatever fill character and adjustment the stream came with; the
    stream is left with a blank fill and no width, left-adjusted after a
    [Time] and right-adjusted after a [Duration]. *)
Theorem prints_append_renderings (os : ostream) (t : Time) (d : Duration) :
  os_width os = 0%nat ->
  well_typed t -> normalized t ->
  0 <= tv_sec (Duration_t d) < 2 ^ 63 ->
  0 <= tv_usec (Duration_t d) < MAX_USECS ->
  Time_print t os = mk_ostream (os_text os +:+ render_Time t) " " 0 adjust_left /\
  Duration_print d os = mk_ostream (os_text os +:+ render_Duration d) " " 0 adjust_right /\
  os_text (Duration_print d (Time_print t os)) =
    os_text os +:+ render_Time t +:+ render_Duration d.
Proof.
  intros Hw Ht Hn Hs Hu.
  assert (Hl : is_long (tv_sec (Duration_t d))) by (unfold is_long; lia).
  rewrite render_Time_text by assumption.
  unfold render_Duration.
  rewrite Time_print_on by assumption.
  rewrite !Duration_print_on by (assumption || reflexivity).
  cbn [os_text ostream_init]. rewrite !string_app_assoc, string_app_nil_l.
  repeat split.
Qed.

Lemma prints_append_renderings_witness :
  let os := mk_ostream "up " "*" 0 adjust_internal in
  let t := Time_of_seconds 1700000000 500 in
  let d := Duration_new (Time_of_seconds 90000 250000) true in
  Time_print t os = mk_ostream ("up " +:+ render_Time t) " " 0 adjust_left /\
  Duration_print d os = mk_ostream ("up " +:+ render_Duration d) " " 0 adjust_right /\
  os_text (Duration_print d (Time_print t os)) =
    "up " +:+ render_Time t +:+ render_Duration d.
Proof.
  apply (prints_append_renderings (mk_ostream "up " "*" 0 adjust_internal)
           (Time_of_seconds 1700000000 500)
           (Duration_new (Time_of_seconds 90000 250000) true));
    first [reflexivity | concrete
          | cbv [Duration_new Time_of_seconds Duration_t Time_t tv_sec tv_usec MAX_USECS]; lia].
Defined.

(** A [Duration] with negative seconds is written from the seconds read
    as an [unsigned long]: the text is that of [seconds + 2 ^ 64] seconds,
    which always starts with a day count of at least [106751991167300]. *)
Theorem Duration_render_negative_seconds (d : Duration) :
  - 2 ^ 63 <= tv_sec (Duration_t d) < 0 ->
  0 <= tv_usec (Duration_t d) < MAX_USECS ->
  render_Duration d =
    duration_text (tv_sec (Duration_t d) + 2 ^ 64) (Duration_su d) (tv_usec (Duration_t d)) /\
  106751991167300 <= (tv_sec (Duration_t d) + 2 ^ 64) / 86400 /\
  ((tv_sec (Duration_t d) + 2 ^ 64) / 86400 =? 0) = false.
Proof.
  intros Hs Hu.
  assert (Hl : is_long (tv_sec (Duration_t d))) by (unfold is_long; lia).
  assert (Hdays : 106751991167300 <= (tv_sec (Duration_t d) + 2 ^ 64) / 86400).
  { apply Z.div_le_lower_bound; lia. }
  split; [| split; [exact Hdays | apply Z.eqb_neq; lia]].
  unfold render_Duration.
  rewrite Duration_print_on by (assumption || reflexivity).
  destruct (to_ulong_cases _ Hl) as [[Hp _] | [_ ->]]; [lia |].
  cbn [os_text ostream_init]. rewrite string_app_nil_l. reflexivity.
Qed.

Lemma Duration_render_negative_seconds_witness :
  let d := Duration_new (Time_of_seconds (-1) 0) false in
  render_Duration d = duration_text (-1 + 2 ^ 64) false 0 /\
  106751991167300 <= (-1 + 2 ^ 64) / 86400 /\
  ((-1 + 2 ^ 64) / 86400 =? 0) = false.
Proof.
  apply (Duration_render_negative_seconds (Duration_new (Time_of_seconds (-1) 0) false));
    cbv [Duration_new Time_of_seconds Duration_t Time_t tv_sec tv_usec MAX_USECS]; lia.
Defined.

End Text.

(** ** Raw offsets *)

Section Offsets.

(** For a normalized [t] and an [unsigned long] count [m], [t + m] and
    [t - m] are normalized and move [in_micros] by [m] microseconds, in
    64-bit arithmetic. *)
Theorem offsets_shift_in_micros (t : Time) (m : Z) :
  normalized t -> is_ulong m ->
  in_micros (Time_plus_offset t m) = to_long (in_micros t + m) /\
  in_micros (Time_minus_offset t m) = to_long (in_micros t - m) /\
  normalized (Time_plus_offset t m) /\
  normalized (Time_minus_offset t m).
Proof.
  intros Hn Hm.
  assert (Hc : normalized (Time_of_micros m) /\ total_micros (Time_of_micros m) = m).
  { rewrite Time_of_micros_spec by assumption.
    unfold is_ulong in Hm.
    unfold spec_Time_of_micros, normalized, total_micros, seconds, micros, MAX_USECS.
    cbn [Time_of_seconds Time_t tv_sec tv_usec].
    pose proof (Z.mod_pos_bound m 1000000 ltac:(lia)).
    pose proof (Z.div_mod m 1000000 ltac:(lia)).
    split; lia. }
  destruct Hc as [Hcn Hct].
  unfold Time_plus_offset, Time_minus_offset.
  rewrite in_micros_plus_total, in_micros_minus_total by assumption.
  rewrite Hct, in_micros_wrap, to_long_add_l, to_long_sub_l.
  split; [reflexivity | split; [reflexivity | split]].
  - apply Time_plus_normalized; assumption.
  - apply Time_minus_normalized; assumption.
Qed.

Lemma offsets_shift_in_micros_witness :
  let t := Time_of_seconds 1 700000 in
  in_micros (Time_plus_offset t 2600000) = 4300000 /\
  in_micros (Time_minus_offset t 2600000) = -900000 /\
  normalized (Time_plus_offset t 2600000) /\
  normalized (Time_minus_offset t 2600000).
Proof.
  apply (offsets_shift_in_micros (Time_of_seconds 1 700000) 2600000); concrete.
Defined.

End Offsets.
